(** * asc-lottery: a shallow embedding of the lottery plugin and its properties

    The development follows [functions.ts]: the ticket validator
    ([parseTicketNumbers]), the purchase flow ([buyTicket]), the draw engine
    ([generateRandomNumbers], [drawWinningNumbers]), the winning-ticket
    predicate ([checkWinningTicket]), the daily scheduler ([scheduleDraw])
    and start-up ([initializeLottery]), and [testCommands.ts]: the chat
    commands [/buyticket], [/simulatedraw] and [/myticket].

    Conventions of the embedding.
    - A JavaScript string is a [string] whose characters are read as code
      units below 256.
    - The result of [Number(token)] is an IEEE 754 binary64 value
      ([spec_float] with precision 53 and maximal exponent 1024), rounded to
      nearest, ties to even.
    - Amounts of money, drawn numbers and time values are integers well
      inside the range in which binary64 arithmetic is exact; they are
      modelled in [Z].  [Math.floor (a / b)] with [b > 0] is [a / b] in [Z].
    - The collaborators (document store, currency ledger, character
      directory, notification channel, clock and random source) are fields
      of an explicit [World] that every operation threads through. *)

From Stdlib Require Import ZArith Lia List String Ascii Bool.
From Stdlib Require Import Floats.SpecFloat.
From stdpp Require Import gmap strings list.

Local Open Scope string_scope.
Local Open Scope Z_scope.

(** ** JavaScript values used by the plugin *)

Module JS.

Definition number := spec_float.

Definition prec : Z := 53.
Definition emax : Z := 1024.

Definition NaN : number := S754_nan.

(** The binary64 value nearest to an integer. *)
Definition of_Z (z : Z) : number := binary_normalize prec emax z 0 false.

(** Global [isNaN] on a number. *)
Definition isNaN (x : number) : bool :=
  match x with S754_nan => true | _ => false end.

(** [x < y] and [x > y] on numbers; both are false when a side is NaN. *)
Definition ltb (x y : number) : bool := SFltb x y.
Definition gtb (x y : number) : bool := SFltb y x.

(** [Number.isInteger]. *)
Definition isInteger (x : number) : bool :=
  match x with
  | S754_zero _ => true
  | S754_finite _ m e =>
      if 0 <=? e then true else Z.pos m mod 2 ^ (- e) =? 0
  | _ => false
  end.

(** *** [String.prototype.split] with a one-character separator.
    The empty string splits into one empty token. *)
Fixpoint split (sep : ascii) (s : string) : list string :=
  match s with
  | EmptyString => [EmptyString]
  | String c s' =>
      if Ascii.eqb c sep then EmptyString :: split sep s'
      else match split sep s' with
           | t :: ts => String c t :: ts
           | [] => [String c EmptyString]
           end
  end.

(** *** [Array.prototype.join] on strings *)
Fixpoint join (sep : string) (l : list string) : string :=
  match l with
  | [] => EmptyString
  | [a] => a
  | a :: rest => a ++ sep ++ join sep rest
  end.

(** *** [StringToNumber] (ECMA-262, 7.1.4.1.1) *)

(** StrWhiteSpaceChar: TAB, LF, VT, FF, CR, SP, NBSP. *)
Definition isStrWhiteSpaceChar (c : ascii) : bool :=
  let n := N_of_ascii c in
  ((9 <=? n) && (n <=? 13) || (n =? 32) || (n =? 160))%N.

Fixpoint trimStart (s : string) : string :=
  match s with
  | String c s' => if isStrWhiteSpaceChar c then trimStart s' else s
  | EmptyString => EmptyString
  end.

Fixpoint trimEnd (s : string) : string :=
  match s with
  | EmptyString => EmptyString
  | String c s' =>
      match trimEnd s' with
      | EmptyString =>
          if isStrWhiteSpaceChar c then EmptyString else String c EmptyString
      | r => String c r
      end
  end.

Definition trim (s : string) : string := trimEnd (trimStart s).

(** Value of a digit character, for bases up to 16. *)
Definition digitValue (c : ascii) : option Z :=
  let n := Z.of_N (N_of_ascii c) in
  if (48 <=? n) && (n <=? 57) then Some (n - 48)
  else if (97 <=? n) && (n <=? 102) then Some (n - 87)
  else if (65 <=? n) && (n <=? 70) then Some (n - 55)
  else None.

Definition digitIn (base : Z) (c : ascii) : option Z :=
  match digitValue c with
  | Some d => if d <? base then Some d else None
  | None => None
  end.

(** Reads the longest prefix of digits of [s]: the number they denote
    (continuing from [acc]), how many there were, and the rest. *)
Fixpoint takeDigits (base : Z) (s : string) (acc : Z) (count : nat)
  : Z * nat * string :=
  match s with
  | String c s' =>
      match digitIn base c with
      | Some d => takeDigits base s' (acc * base + d) (S count)
      | None => (acc, count, s)
      end
  | EmptyString => (acc, count, EmptyString)
  end.

(** ExponentPart, optional: [None] when the text is not one. *)
Definition exponentPart (s : string) : option Z :=
  match s with
  | EmptyString => Some 0
  | String c s' =>
      if Ascii.eqb c "e" || Ascii.eqb c "E" then
        let '(sgn, ds) :=
          match s' with
          | String "+" r => (1, r)
          | String "-" r => (-1, r)
          | _ => (1, s')
          end in
        match takeDigits 10 ds 0 0 with
        | (v, S _, EmptyString) => Some (sgn * v)
        | _ => None
        end
      else None
  end.

(** The Number value of [m * 10 ^ e], with the sign [neg]: the nearest
    binary64 value, for numerals of any length. *)
Definition roundDecimal (neg : bool) (m e : Z) : number :=
  match m with
  | Z.pos p =>
      if 0 <=? e
      then binary_normalize prec emax ((if neg then -1 else 1) * (m * 10 ^ e)) 0 false
      else SFdiv prec emax (S754_finite neg p 0)
                 (S754_finite false (Z.to_pos (10 ^ (- e))) 0)
  | _ => S754_zero neg
  end.

(** StrUnsignedDecimalLiteral. *)
Definition strUnsignedDecimalLiteral (neg : bool) (s : string) : number :=
  if String.eqb s "Infinity" then S754_infinity neg
  else
    let '(i, ni, s1) := takeDigits 10 s 0 0 in
    let '(m, nf, s2) :=
      match s1 with
      | String "." r => takeDigits 10 r i 0
      | _ => (i, 0%nat, s1)
      end in
    match ni, nf with
    | O, O => NaN
    | _, _ =>
        match exponentPart s2 with
        | Some e => roundDecimal neg m (e - Z.of_nat nf)
        | None => NaN
        end
    end.

(** NonDecimalIntegerLiteral: the digits after the two-character prefix. *)
Definition nonDecimalIntegerLiteral (base : Z) (ds : string) : number :=
  match takeDigits base ds 0 0 with
  | (v, S _, EmptyString) => of_Z v
  | _ => NaN
  end.

Definition strNumericLiteral (s : string) : number :=
  match s with
  | String "0" (String c ds) =>
      if Ascii.eqb c "x" || Ascii.eqb c "X" then nonDecimalIntegerLiteral 16 ds
      else if Ascii.eqb c "o" || Ascii.eqb c "O" then nonDecimalIntegerLiteral 8 ds
      else if Ascii.eqb c "b" || Ascii.eqb c "B" then nonDecimalIntegerLiteral 2 ds
      else strUnsignedDecimalLiteral false s
  | String "+" r => strUnsignedDecimalLiteral false r
  | String "-" r => strUnsignedDecimalLiteral true r
  | _ => strUnsignedDecimalLiteral false s
  end.

(** [Number(s)] for a string [s]. *)
Definition Number (s : string) : number :=
  match trim s with
  | EmptyString => S754_zero false
  | t => strNumericLiteral t
  end.

End JS.

(** ** Ticket validator *)

Definition parseTicketNumbers (numbersString : string) : option (list JS.number) :=
  let numbers := map JS.Number (JS.split " " numbersString) in
  if negb (Nat.eqb (List.length numbers) 6)
     || existsb JS.isNaN numbers
     || existsb (fun n => JS.ltb n (JS.of_Z 1) || JS.gtb n (JS.of_Z 49)) numbers
  then None
  else Some numbers.

(** ** Data model ([interface.ts], [config.ts]) *)

(** [lotteryConfig]: its module is not part of the sources at hand, so the
    configuration is a parameter of everything below. *)
Module Config.
Record t := {
  ticketPrice : Z;
  initialJackpot : Z;
  ticketCollection : string
}.
End Config.

Module ASCLottery.
Record t := {
  _id : option string;
  type : string;
  ticketPrice : Z;
  jackpot : Z;
  lastDrawDate : Z;
  winningNumbers : list Z
}.

Definition set_id (v : string) (s : t) : t :=
  {| _id := Some v; type := type s; ticketPrice := ticketPrice s;
     jackpot := jackpot s; lastDrawDate := lastDrawDate s;
     winningNumbers := winningNumbers s |}.

Definition set_jackpot (v : Z) (s : t) : t :=
  {| _id := _id s; type := type s; ticketPrice := ticketPrice s;
     jackpot := v; lastDrawDate := lastDrawDate s;
     winningNumbers := winningNumbers s |}.

Definition set_lastDrawDate (v : Z) (s : t) : t :=
  {| _id := _id s; type := type s; ticketPrice := ticketPrice s;
     jackpot := jackpot s; lastDrawDate := v;
     winningNumbers := winningNumbers s |}.

Definition set_winningNumbers (v : list Z) (s : t) : t :=
  {| _id := _id s; type := type s; ticketPrice := ticketPrice s;
     jackpot := jackpot s; lastDrawDate := lastDrawDate s;
     winningNumbers := v |}.
End ASCLottery.

Module LotteryTicket.
Record t := {
  _id : option string;
  ticketNumbers : list JS.number;
  playerUUID : string
}.

Definition set_id (v : string) (k : t) : t :=
  {| _id := Some v; ticketNumbers := ticketNumbers k;
     playerUUID := playerUUID k |}.
End LotteryTicket.

(** The part of a character document the plugin and the currency API
    touch.  In the world below characters are kept by [_id], and a document
    read from the store carries the [_id] it was found under. *)
Module Character.
Record t := {
  _id : string;
  name : string;
  cash : Z;
  bank : Z
}.

Definition set_id (v : string) (c : t) : t :=
  {| _id := v; name := name c; cash := cash c; bank := bank c |}.
End Character.

(** An [alt.Player]; [useCharacter(player).get()] is the character document
    bound to it, of which only [_id] is read. *)
Module Player.
Record t := { character_id : string }.
End Player.

Inductive Account := cash | bank.

(** What the notification API is asked to show.  Titles, icons and the
    wording of the messages are not modelled. *)
Inductive Notification :=
| AlreadyHasTicket (player : Player.t)
| NotEnoughMoney (player : Player.t)
| DrawResult (winningNumbers : list Z) (winnerName : string).

(** Calls received by the currency API, oldest first. *)
Inductive LedgerCall :=
| LedgerSub (id : string) (account : Account) (amount : Z) (ok : bool)
| LedgerAdd (id : string) (account : Account) (amount : Z).

(** A pending [setTimeout] whose callback runs the draw and reschedules. *)
Record Timer := { delay : Z }.

(** ** The world the plugin runs in

    The ticket collection, the ['misc'] collection and ['Characters'] are
    distinct collections.  Every stored ticket has an [_id], kept next to
    the document.  [createOutcomes] lists what the coming calls of
    [Database.create] return ([None]: no id, nothing stored); [random] is
    the sequence of values [Math.random()] returns, as numerators over
    [2^53]; [clock] is the time value [new Date()] reads. *)
Record World := {
  misc_lottery : option ASCLottery.t;
  tickets : list (string * LotteryTicket.t);
  characters : gmap string Character.t;
  notifications : list Notification;
  ledger : list LedgerCall;
  timers : list Timer;
  createOutcomes : list (option string);
  random : nat -> Z;
  randomCalls : nat;
  clock : Z
}.

Definition set_misc_lottery (v : option ASCLottery.t) (w : World) : World :=
  {| misc_lottery := v; tickets := tickets w; characters := characters w;
     notifications := notifications w; ledger := ledger w; timers := timers w;
     createOutcomes := createOutcomes w; random := random w;
     randomCalls := randomCalls w; clock := clock w |}.

Definition set_tickets (v : list (string * LotteryTicket.t)) (w : World) : World :=
  {| misc_lottery := misc_lottery w; tickets := v; characters := characters w;
     notifications := notifications w; ledger := ledger w; timers := timers w;
     createOutcomes := createOutcomes w; random := random w;
     randomCalls := randomCalls w; clock := clock w |}.

Definition set_characters (v : gmap string Character.t) (w : World) : World :=
  {| misc_lottery := misc_lottery w; tickets := tickets w; characters := v;
     notifications := notifications w; ledger := ledger w; timers := timers w;
     createOutcomes := createOutcomes w; random := random w;
     randomCalls := randomCalls w; clock := clock w |}.

Definition set_notifications (v : list Notification) (w : World) : World :=
  {| misc_lottery := misc_lottery w; tickets := tickets w;
     characters := characters w; notifications := v; ledger := ledger w;
     timers := timers w; createOutcomes := createOutcomes w;
     random := random w; randomCalls := randomCalls w; clock := clock w |}.

Definition set_ledger (v : list LedgerCall) (w : World) : World :=
  {| misc_lottery := misc_lottery w; tickets := tickets w;
     characters := characters w; notifications := notifications w;
     ledger := v; timers := timers w; createOutcomes := createOutcomes w;
     random := random w; randomCalls := randomCalls w; clock := clock w |}.

Definition set_timers (v : list Timer) (w : World) : World :=
  {| misc_lottery := misc_lottery w; tickets := tickets w;
     characters := characters w; notifications := notifications w;
     ledger := ledger w; timers := v; createOutcomes := createOutcomes w;
     random := random w; randomCalls := randomCalls w; clock := clock w |}.

Definition set_createOutcomes (v : list (option string)) (w : World) : World :=
  {| misc_lottery := misc_lottery w; tickets := tickets w;
     characters := characters w; notifications := notifications w;
     ledger := ledger w; timers := timers w; createOutcomes := v;
     random := random w; randomCalls := randomCalls w; clock := clock w |}.

Definition set_randomCalls (v : nat) (w : World) : World :=
  {| misc_lottery := misc_lottery w; tickets := tickets w;
     characters := characters w; notifications := notifications w;
     ledger := ledger w; timers := timers w;
     createOutcomes := createOutcomes w; random := random w;
     randomCalls := v; clock := clock w |}.

(** ** Computations over the world

    [None] stands for a run that does not return within the fuel given to
    the rejection loop of [generateRandomNumbers]; nothing else can fail. *)
Definition M (A : Type) : Type := World -> option (A * World).

Definition ret {A} (a : A) : M A := fun w => Some (a, w).

Definition bind {A B} (m : M A) (k : A -> M B) : M B :=
  fun w => match m w with
           | Some (a, w') => k a w'
           | None => None
           end.

Definition diverge {A} : M A := fun _ => None.

Declare Scope world_scope.
Delimit Scope world_scope with world.
Notation "'let*' x := m 'in' k" := (bind m (fun x => k))
  (at level 10, x pattern, m at level 100, k at level 200) : world_scope.
Notation "m ;; k" := (bind m (fun _ => k))
  (at level 100, k at level 200, right associativity) : world_scope.
Local Open Scope world_scope.

(** [for (const x of xs) body(x)] *)
Fixpoint forEach {A} (xs : list A) (body : A -> M unit) : M unit :=
  match xs with
  | [] => ret tt
  | x :: rest => body x ;; forEach rest body
  end.

(** *** Document store *)

Module Database.

(** [get({ type: 'lottery' }, 'misc')] *)
Definition get_lottery : M (option ASCLottery.t) :=
  fun w => Some (misc_lottery w, w).

(** [update(lotteryState, 'misc')]: replaces the stored document; there
    is no upsert. *)
Definition update_lottery (s : ASCLottery.t) : M unit :=
  fun w => Some (tt, match misc_lottery w with
                     | Some _ => set_misc_lottery (Some s) w
                     | None => w
                     end).

(** [create(lotteryState, 'misc')] *)
Definition create_lottery (s : ASCLottery.t) : M (option string) :=
  fun w => match createOutcomes w with
           | Some id :: rest =>
               Some (Some id,
                     set_createOutcomes rest
                       (match misc_lottery w with
                        | Some _ => w
                        | None => set_misc_lottery (Some (ASCLottery.set_id id s)) w
                        end))
           | None :: rest => Some (None, set_createOutcomes rest w)
           | [] => Some (None, w)
           end.

Definition stored (d : string * LotteryTicket.t) : LotteryTicket.t :=
  LotteryTicket.set_id (fst d) (snd d).

(** [get({ playerUUID }, ticketCollection)]: the first match. *)
Definition get_ticket (playerUUID : string) : M (option LotteryTicket.t) :=
  fun w => Some (stored <$>
                   List.find (fun d => String.eqb (LotteryTicket.playerUUID (snd d)) playerUUID)
                             (tickets w), w).

(** [getAll(ticketCollection)] *)
Definition getAll_tickets : M (list LotteryTicket.t) :=
  fun w => Some (map stored (tickets w), w).

(** [create(ticket, ticketCollection)] *)
Definition create_ticket (k : LotteryTicket.t) : M (option string) :=
  fun w => match createOutcomes w with
           | Some id :: rest =>
               Some (Some id, set_createOutcomes rest (set_tickets (tickets w ++ [(id, k)]) w))
           | None :: rest => Some (None, set_createOutcomes rest w)
           | [] => Some (None, w)
           end.

Fixpoint remove_first (id : string) (ds : list (string * LotteryTicket.t)) :=
  match ds with
  | [] => []
  | d :: rest => if String.eqb (fst d) id then rest else d :: remove_first id rest
  end.

(** [deleteDocument(id, ticketCollection)]: deletes one document. *)
Definition deleteDocument (id : option string) : M unit :=
  fun w => Some (tt, match id with
                     | Some i => set_tickets (remove_first i (tickets w)) w
                     | None => w
                     end).

(** [Rebar.database.useDatabase().get({ _id }, 'Characters')] *)
Definition get_character (id : string) : M (option Character.t) :=
  fun w => Some (Character.set_id id <$> characters w !! id, w).

End Database.

(** *** Currency ledger

    The balances of a character live in its document.  [sub] succeeds, and
    debits, exactly when the character exists and holds at least the
    amount; [add] credits an existing character. *)
Module CurrencyAPI.

Definition balance (a : Account) (c : Character.t) : Z :=
  match a with
  | cash => Character.cash c
  | bank => Character.bank c
  end.

Definition set_balance (a : Account) (v : Z) (c : Character.t) : Character.t :=
  match a with
  | cash => {| Character._id := Character._id c; Character.name := Character.name c;
               Character.cash := v; Character.bank := Character.bank c |}
  | bank => {| Character._id := Character._id c; Character.name := Character.name c;
               Character.cash := Character.cash c; Character.bank := v |}
  end.

(** [useCurrency(id, 'Character').sub(account, amount)] *)
Definition sub (id : string) (a : Account) (amount : Z) : M bool :=
  fun w =>
    match characters w !! id with
    | Some c =>
        if amount <=? balance a c
        then Some (true,
                   set_ledger (ledger w ++ [LedgerSub id a amount true])
                     (set_characters
                        (<[id := set_balance a (balance a c - amount) c]> (characters w)) w))
        else Some (false, set_ledger (ledger w ++ [LedgerSub id a amount false]) w)
    | None => Some (false, set_ledger (ledger w ++ [LedgerSub id a amount false]) w)
    end.

(** [useCurrency(id, 'Character').add(account, amount)] *)
Definition add (id : string) (a : Account) (amount : Z) : M unit :=
  fun w =>
    let w' := set_ledger (ledger w ++ [LedgerAdd id a amount]) w in
    match characters w !! id with
    | Some c =>
        Some (tt, set_characters
                    (<[id := set_balance a (balance a c + amount) c]> (characters w)) w')
    | None => Some (tt, w')
    end.

End CurrencyAPI.

(** *** Notifications, clock, random source, timers *)

Module NotificationAPI.
Definition send (n : Notification) : M unit :=
  fun w => Some (tt, set_notifications (notifications w ++ [n]) w).
Definition sendAll (n : Notification) : M unit := send n.
End NotificationAPI.

(** [new Date()], as a time value. *)
Definition Date_now : M Z := fun w => Some (clock w, w).

Module Math.
(** [Math.random()]: the numerator, over [2^53], of a value in [0, 1). *)
Definition random : M Z :=
  fun w => Some (random w (randomCalls w) mod 2 ^ 53,
                 set_randomCalls (S (randomCalls w)) w).

(** [Math.floor(r * n)] for [r] drawn by [random] and an integer [n],
    computed exactly.  The code floors the binary64 product, which rounding
    can lift to the next integer where [r * n] lies just below one; both
    stay within [0, n), and the general properties below rest on that range
    alone.  The samples of [Scenario.tape] lie just above an integer, where
    the two agree. *)
Definition floor_scaled (r n : Z) : Z := r * n / 2 ^ 53.
End Math.

Definition setTimeout (ms : Z) : M unit :=
  fun w => Some (tt, set_timers (timers w ++ [{| delay := ms |}]) w).

(** ** Dates (ECMA-262, 21.4.1)

    Time values are milliseconds since the epoch.  The local time zone
    adjustment is a constant offset; daylight saving transitions and
    [TimeClip] (the identity on the dates a clock shows) are not modelled. *)
Module JSDate.

Definition msPerDay : Z := 86400000.
Definition msPerHour : Z := 3600000.
Definition msPerMinute : Z := 60000.
Definition msPerSecond : Z := 1000.

Definition Day (t : Z) : Z := t / msPerDay.
Definition TimeWithinDay (t : Z) : Z := t mod msPerDay.

Definition DaysInYear (y : Z) : Z :=
  if (y mod 4 =? 0) && (negb (y mod 100 =? 0) || (y mod 400 =? 0))
  then 366 else 365.

Definition DayFromYear (y : Z) : Z :=
  365 * (y - 1970) + (y - 1969) / 4 - (y - 1901) / 100 + (y - 1601) / 400.

(** The largest [y] with [DayFromYear y <= Day t], computed on the
    400-year cycle that starts on a first of March. *)
Definition YearFromTime (t : Z) : Z :=
  let z := Day t + 719468 in
  let era := z / 146097 in
  let doe := z mod 146097 in
  let yoe := (doe - doe / 1460 + doe / 36524 - doe / 146096) / 365 in
  let doy := doe - (365 * yoe + yoe / 4 - yoe / 100) in
  let y := yoe + era * 400 in
  if doy <? 306 then y else y + 1.

Definition InLeapYear (t : Z) : Z :=
  if DaysInYear (YearFromTime t) =? 366 then 1 else 0.

Definition DayWithinYear (t : Z) : Z := Day t - DayFromYear (YearFromTime t).

(** Day within the year on which month [m] (0 to 11) starts. *)
Definition firstDayOfMonth (m leap : Z) : Z :=
  match m with
  | 0 => 0
  | 1 => 31
  | 2 => 59 + leap
  | 3 => 90 + leap
  | 4 => 120 + leap
  | 5 => 151 + leap
  | 6 => 181 + leap
  | 7 => 212 + leap
  | 8 => 243 + leap
  | 9 => 273 + leap
  | 10 => 304 + leap
  | _ => 334 + leap
  end.

Definition MonthFromTime (t : Z) : Z :=
  let d := DayWithinYear t in
  let leap := InLeapYear t in
  if d <? 31 then 0
  else if d <? 59 + leap then 1
  else if d <? 90 + leap then 2
  else if d <? 120 + leap then 3
  else if d <? 151 + leap then 4
  else if d <? 181 + leap then 5
  else if d <? 212 + leap then 6
  else if d <? 243 + leap then 7
  else if d <? 273 + leap then 8
  else if d <? 304 + leap then 9
  else if d <? 334 + leap then 10
  else 11.

Definition DateFromTime (t : Z) : Z :=
  DayWithinYear t - firstDayOfMonth (MonthFromTime t) (InLeapYear t) + 1.

Definition MakeTime (hour min sec ms : Z) : Z :=
  hour * msPerHour + min * msPerMinute + sec * msPerSecond + ms.

Definition MakeDay (year month date : Z) : Z :=
  let ym := year + month / 12 in
  let mn := month mod 12 in
  DayFromYear ym + firstDayOfMonth mn (if DaysInYear ym =? 366 then 1 else 0)
  + date - 1.

Definition MakeDate (day time : Z) : Z := day * msPerDay + time.

Definition MakeFullYear (year : Z) : Z :=
  if (0 <=? year) && (year <=? 99) then 1900 + year else year.

Section LocalTime.

Variable LocalTZA : Z.

Definition LocalTime (t : Z) : Z := t + LocalTZA.
Definition UTC (t : Z) : Z := t - LocalTZA.

Definition getFullYear (d : Z) : Z := YearFromTime (LocalTime d).
Definition getMonth (d : Z) : Z := MonthFromTime (LocalTime d).
Definition getDate (d : Z) : Z := DateFromTime (LocalTime d).
Definition getTime (d : Z) : Z := d.

(** [new Date(year, month, date, hours, minutes, seconds, ms)] *)
Definition construct (year month date hours minutes seconds ms : Z) : Z :=
  UTC (MakeDate (MakeDay (MakeFullYear year) month date)
                (MakeTime hours minutes seconds ms)).

(** [d.setDate(date)]: the new time value of [d]. *)
Definition setDate (d date : Z) : Z :=
  let t := LocalTime d in
  UTC (MakeDate (MakeDay (YearFromTime t) (MonthFromTime t) date)
                (TimeWithinDay t)).

End LocalTime.

End JSDate.

(** ** The plugin ([functions.ts]) *)

Module numberRange.
Definition min : Z := 1.
Definition max : Z := 49.
End numberRange.

Module drawTime.
Definition hour : Z := 18.
Definition minute : Z := 0.
End drawTime.

(** A JavaScript [Set] of numbers in insertion order. *)
Definition Set_add (x : Z) (s : list Z) : list Z :=
  if existsb (Z.eqb x) s then s else s ++ [x].

(** [generateRandomNumbers]: each unit of fuel pays for one turn of the
    [while] loop. *)
Fixpoint generateRandomNumbers_loop (fuel : nat) (count min max : Z)
    (numbers : list Z) : M (list Z) :=
  if Z.of_nat (List.length numbers) <? count then
    match fuel with
    | O => diverge
    | S fuel' =>
        let* r := Math.random in
        generateRandomNumbers_loop fuel' count min max
          (Set_add (Math.floor_scaled r (max - min + 1) + min) numbers)
    end
  else ret numbers.

Definition generateRandomNumbers (fuel : nat) (count min max : Z) : M (list Z) :=
  generateRandomNumbers_loop fuel count min max [].

(** JavaScript truthiness of an optional string. *)
Definition truthy (id : option string) : bool :=
  match id with
  | Some EmptyString | None => false
  | Some _ => true
  end.

(** [winningNumbers.includes(num)] for a ticket number.  Winning numbers
    are integers, never NaN, so the comparison of [includes] is numeric
    equality. *)
Definition includes (winningNumbers : list Z) (num : JS.number) : bool :=
  existsb (fun w => SFeqb (JS.of_Z w) num) winningNumbers.

Definition checkWinningTicket (ticket : LotteryTicket.t) (winningNumbers : list Z) : bool :=
  forallb (includes winningNumbers) (LotteryTicket.ticketNumbers ticket).

Section Lottery.

Variable lotteryConfig : Config.t.

Definition buyTicket (player : Player.t) (numbers : string)
  : M (option LotteryTicket.t) :=
  let rPlayer_id := Player.character_id player in
  match parseTicketNumbers numbers with
  | None => ret None
  | Some ticketNumbers =>
      let* existingTicket := Database.get_ticket rPlayer_id in
      match existingTicket with
      | Some _ =>
          NotificationAPI.send (AlreadyHasTicket player) ;;
          ret None
      | None =>
          let* hasEnough :=
            CurrencyAPI.sub rPlayer_id cash (Config.ticketPrice lotteryConfig) in
          if negb hasEnough then
            NotificationAPI.send (NotEnoughMoney player) ;;
            ret None
          else
            let newTicket :=
              {| LotteryTicket._id := None;
                 LotteryTicket.ticketNumbers := ticketNumbers;
                 LotteryTicket.playerUUID := rPlayer_id |} in
            let* ticketId := Database.create_ticket newTicket in
            if negb (truthy ticketId) then ret None
            else
              let newTicket := LotteryTicket.set_id (default "" ticketId) newTicket in
              let* lotteryState := Database.get_lottery in
              match lotteryState with
              | Some st =>
                  Database.update_lottery
                    (ASCLottery.set_jackpot
                       (ASCLottery.jackpot st + ASCLottery.ticketPrice st) st)
              | None => ret tt
              end ;;
              ret (Some newTicket)
      end
  end.

(** The body of the payout loop of [drawWinningNumbers]; [winnerName] is
    the variable the loop assigns. *)
Fixpoint payWinners (winningTickets : list LotteryTicket.t) (jackpotShare : Z)
    (winnerName : string) : M string :=
  match winningTickets with
  | [] => ret winnerName
  | ticket :: rest =>
      let* winnerCharacter :=
        Database.get_character (LotteryTicket.playerUUID ticket) in
      match winnerCharacter with
      | Some c =>
          CurrencyAPI.add (Character._id c) bank jackpotShare ;;
          payWinners rest jackpotShare (Character.name c)
      | None => payWinners rest jackpotShare winnerName
      end
  end.

Definition drawWinningNumbers (fuel : nat) : M (list Z) :=
  let* lotteryState := Database.get_lottery in
  match lotteryState with
  | Some st =>
      let* numbers := generateRandomNumbers fuel 6 numberRange.min numberRange.max in
      let st := ASCLottery.set_winningNumbers numbers st in
      let* now := Date_now in
      let st := ASCLottery.set_lastDrawDate now st in
      Database.update_lottery st ;;
      let* winningTickets := Database.getAll_tickets in
      let* (winnerName, st) :=
        if (0 <? Z.of_nat (List.length winningTickets)) then
          let jackpotShare :=
            ASCLottery.jackpot st / Z.of_nat (List.length winningTickets) in
          let* winnerName := payWinners winningTickets jackpotShare "No Winner today." in
          let st := ASCLottery.set_jackpot (Config.initialJackpot lotteryConfig) st in
          Database.update_lottery st ;;
          ret (winnerName, st)
        else ret ("No Winner today.", st) in
      NotificationAPI.sendAll (DrawResult (ASCLottery.winningNumbers st) winnerName) ;;
      let* allTickets := Database.getAll_tickets in
      forEach allTickets
        (fun ticket => Database.deleteDocument (LotteryTicket._id ticket)) ;;
      ret (ASCLottery.winningNumbers st)
  | None => ret []
  end.

(** The lottery state a draw leaves behind. *)
Definition drawnState (st : ASCLottery.t) (numbers : list Z) (now : Z)
    (paid : bool) : ASCLottery.t :=
  let st := ASCLottery.set_lastDrawDate now (ASCLottery.set_winningNumbers numbers st) in
  if paid then ASCLottery.set_jackpot (Config.initialJackpot lotteryConfig) st
  else st.

(** The host's local time zone adjustment, in milliseconds. *)
Variable LocalTZA : Z.

(** The draw instant of local day [day], as a time value. *)
Definition drawInstant (day : Z) : Z :=
  JSDate.UTC LocalTZA
    (JSDate.MakeDate day (JSDate.MakeTime drawTime.hour drawTime.minute 0 0)).


(** The value of [nextDraw] when [scheduleDraw] reads the clock at [now]. *)
Definition nextDrawAfter (now : Z) : Z :=
  let nextDraw :=
    JSDate.construct LocalTZA
      (JSDate.getFullYear LocalTZA now) (JSDate.getMonth LocalTZA now)
      (JSDate.getDate LocalTZA now) drawTime.hour drawTime.minute 0 0 in
  if now >? nextDraw
  then JSDate.setDate LocalTZA nextDraw (JSDate.getDate LocalTZA nextDraw + 1)
  else nextDraw.

Definition scheduleDraw : M unit :=
  let* now := Date_now in
  let nextDraw := nextDrawAfter now in
  let timeUntilDraw := JSDate.getTime nextDraw - JSDate.getTime now in
  setTimeout timeUntilDraw.


Definition initializeLottery : M unit :=
  let* lotteryState := Database.get_lottery in
  match lotteryState with
  | Some _ => ret tt
  | None =>
      Database.create_lottery
        {| ASCLottery._id := None;
           ASCLottery.type := "lottery";
           ASCLottery.ticketPrice := Config.ticketPrice lotteryConfig;
           ASCLottery.jackpot := Config.initialJackpot lotteryConfig;
           ASCLottery.lastDrawDate := 0;
           ASCLottery.winningNumbers := [] |} ;;
      ret tt
  end ;;
  scheduleDraw.

(** [getCurrentTicket] *)
Definition getCurrentTicket (player : Player.t) : M (option LotteryTicket.t) :=
  Database.get_ticket (Player.character_id player).

End Lottery.

(** ** Chat commands ([testCommands.ts])

    A command's callback notifies its caller, or everybody, about the
    outcome; that notification is the value the model of the callback
    returns.  Log lines are not modelled.  No modelled call throws, so the
    [try]/[catch] blocks of [simulatedraw] are bare sequences. *)
Inductive CommandReply :=
| InvalidUsage
| FailedToBuy
| Bought (ticketNumbers : list JS.number)
| SimulatedDraw (winningNumbers : list Z) (winnerName : string)
| NothingSimulated
| CurrentTicket (ticketNumbers : list JS.number)
| NoCurrentTicket.

(** [Array(n).fill(0).map(() => Math.floor(Math.random() * 49) + 1)] *)
Fixpoint randomNumbers (n : nat) : M (list Z) :=
  match n with
  | O => ret []
  | S n' =>
      let* r := Math.random in
      let* rest := randomNumbers n' in
      ret (Math.floor_scaled r 49 + 1 :: rest)
  end.

(** Whether a stored array of ticket numbers equals the array of winning
    numbers, element by element. *)
Fixpoint sameNumbers (winningNumbers : list Z) (ticketNumbers : list JS.number) : bool :=
  match winningNumbers, ticketNumbers with
  | [], [] => true
  | w :: ws, t :: ts => SFeqb (JS.of_Z w) t && sameNumbers ws ts
  | _, _ => false
  end.

(** [Database.get({ ticketNumbers }, ticketCollection)]: the first ticket
    whose numbers are that array. *)
Definition get_ticket_by_numbers (winningNumbers : list Z) : M (option LotteryTicket.t) :=
  fun w => Some (Database.stored <$>
                   List.find (fun d => sameNumbers winningNumbers
                                         (LotteryTicket.ticketNumbers (snd d)))
                             (tickets w), w).

Section Commands.

Variable lotteryConfig : Config.t.

(** [/buyticket <number> ... <number>] *)
Definition buyticketCommand (player : Player.t) (numbers : list string)
  : M CommandReply :=
  if negb (Nat.eqb (List.length numbers) 6) then ret InvalidUsage
  else
    let* result := buyTicket lotteryConfig player (JS.join " " numbers) in
    match result with
    | None => ret FailedToBuy
    | Some ticket => ret (Bought (LotteryTicket.ticketNumbers ticket))
    end.

(** [/simulatedraw] *)
Definition simulatedrawCommand : M CommandReply :=
  let* lotteryState := Database.get_lottery in
  match lotteryState with
  | Some st =>
      let* numbers := randomNumbers 6 in
      let st := ASCLottery.set_winningNumbers numbers st in
      Database.update_lottery st ;;
      let* winningTicket := get_ticket_by_numbers (ASCLottery.winningNumbers st) in
      let* winnerName :=
        match winningTicket with
        | Some ticket =>
            let* winnerCharacter :=
              Database.get_character (LotteryTicket.playerUUID ticket) in
            ret match winnerCharacter with
                | Some c => Character.name c
                | None => "Unknown (Character not found)"
                end
        | None => ret "No Winner today."
        end in
      let* allTickets := Database.getAll_tickets in
      forEach allTickets
        (fun ticket => Database.deleteDocument (LotteryTicket._id ticket)) ;;
      ret (SimulatedDraw (ASCLottery.winningNumbers st) winnerName)
  | None => ret NothingSimulated
  end.


End Commands.

(** ** The validator as the specification words it

    Tokens are separated by runs of white space; a token is an integer when
    it is an optional sign followed by decimal digits. *)
Module Spec.

Fixpoint tokens_aux (s : string) (cur : string) : list string :=
  match s with
  | EmptyString => match cur with EmptyString => [] | _ => [cur] end
  | String c s' =>
      if JS.isStrWhiteSpaceChar c then
        match cur with
        | EmptyString => tokens_aux s' EmptyString
        | _ => cur :: tokens_aux s' EmptyString
        end
      else tokens_aux s' (cur ++ String c EmptyString)
  end.

Definition tokens (s : string) : list string := tokens_aux s EmptyString.

Definition integerToken (t : string) : option Z :=
  let '(neg, ds) :=
    match t with
    | String "-" r => (true, r)
    | String "+" r => (false, r)
    | _ => (false, t)
    end in
  match JS.takeDigits 10 ds 0 0 with
  | (v, S _, EmptyString) => Some (if neg then - v else v)
  | _ => None
  end.

Definition inRange (v : Z) : bool := (1 <=? v) && (v <=? 49).

(** The decimal numeral of an integer from 0 to 99. *)
Definition digitChar (d : Z) : ascii := ascii_of_N (Z.to_N (48 + d)).

Definition numeral (n : Z) : string :=
  if n <? 10 then String (digitChar n) EmptyString
  else String (digitChar (n / 10)) (String (digitChar (n mod 10)) EmptyString).

Definition rejects (s : string) : bool :=
  let ts := tokens s in
  negb (Nat.eqb (List.length ts) 6)
  || existsb (fun t => match integerToken t with
                       | Some v => negb (inRange v)
                       | None => true
                       end) ts.

End Spec.

(** ** Vocabulary of the statements *)

Definition holdsTicket (id : string) (w : World) : Prop :=
  exists d, In d (tickets w) /\ LotteryTicket.playerUUID (snd d) = id.

Definition findTicket (id : string) (w : World) :=
  List.find (fun d => String.eqb (LotteryTicket.playerUUID (snd d)) id) (tickets w).

(** What the next call of [Database.create] returns. *)
Definition nextCreateResult (w : World) : option string :=
  match createOutcomes w with
  | Some id :: _ => Some id
  | _ => None
  end.

Definition inRange (min max n : Z) : Prop := min <= n <= max.


(** The numbers in the set after [k] more turns of the loop, were it not to
    stop: what [k] calls of [Math.random] from position [pos] add. *)
Fixpoint drawnAfter (tape : nat -> Z) (min max : Z) (k pos : nat)
    (numbers : list Z) : list Z :=
  match k with
  | O => numbers
  | S k' =>
      drawnAfter tape min max k' (S pos)
        (Set_add (Math.floor_scaled (tape pos mod 2 ^ 53) (max - min + 1) + min)
                 numbers)
  end.

(** *** The payout loop *)

Definition ownedBy (id : string) (ticket : LotteryTicket.t) : bool :=
  String.eqb (LotteryTicket.playerUUID ticket) id.

(** How many of the tickets belong to [id]. *)
Definition ticketsOf (id : string) (l : list LotteryTicket.t) : Z :=
  Z.of_nat (List.length (List.filter (ownedBy id) l)).

(** The credits the payout loop asks for: one per ticket whose holder is a
    known character, in ticket order. *)
Definition credits (chars : gmap string Character.t) (share : Z)
    (l : list LotteryTicket.t) : list LedgerCall :=
  map (fun t => LedgerAdd (LotteryTicket.playerUUID t) bank share)
      (List.filter (fun t => bool_decide (is_Some (chars !! LotteryTicket.playerUUID t))) l).

(** Two character maps that differ by bank credits only. *)
Definition credited (share : Z) (l : list LotteryTicket.t)
    (before after : gmap string Character.t) : Prop :=
  forall id,
    match before !! id, after !! id with
    | Some c, Some c' =>
        Character.bank c' = Character.bank c + share * ticketsOf id l
        /\ Character.cash c' = Character.cash c
        /\ Character.name c' = Character.name c
    | None, None => True
    | _, _ => False
    end.

(** *** Tickets and their owners *)

(** The owners of the stored tickets, in store order. *)
Definition owners (w : World) : list string :=
  map (fun d => LotteryTicket.playerUUID (snd d)) (tickets w).

(** At most one ticket per identity. *)
Definition oneTicketEach (w : World) : Prop := List.NoDup (owners w).

(** Two lottery states that differ in the jackpot at most. *)
Definition sameButJackpot (st st' : ASCLottery.t) : Prop :=
  ASCLottery._id st' = ASCLottery._id st
  /\ ASCLottery.type st' = ASCLottery.type st
  /\ ASCLottery.ticketPrice st' = ASCLottery.ticketPrice st
  /\ ASCLottery.lastDrawDate st' = ASCLottery.lastDrawDate st
  /\ ASCLottery.winningNumbers st' = ASCLottery.winningNumbers st.

(** The lottery state, if any, records the configured ticket price. *)
Definition priceAgrees (lotteryConfig : Config.t) (w : World) : Prop :=
  forall st, misc_lottery w = Some st ->
             ASCLottery.ticketPrice st = Config.ticketPrice lotteryConfig.

(** The sum of the credits among ledger calls. *)
Fixpoint totalCredited (calls : list LedgerCall) : Z :=
  match calls with
  | [] => 0
  | LedgerAdd _ _ amount :: rest => amount + totalCredited rest
  | LedgerSub _ _ _ _ :: rest => totalCredited rest
  end.

(** The tickets whose holder is a known character. *)
Definition resolved (chars : gmap string Character.t) (l : list LotteryTicket.t)
  : list LotteryTicket.t :=
  List.filter (fun t => bool_decide (is_Some (chars !! LotteryTicket.playerUUID t))) l.

(** The value of [winnerName] after the payout loop has run over [l] from
    [initial]: the name of the holder of the last ticket whose holder is a
    known character, [initial] itself when there is none. *)
Definition announcedName (chars : gmap string Character.t) (l : list LotteryTicket.t)
    (initial : string) : string :=
  match List.last (map Some (resolved chars l)) None with
  | Some t =>
      match chars !! LotteryTicket.playerUUID t with
      | Some c => Character.name c
      | None => initial
      end
  | None => initial
  end.

(** A ticket of integers. *)
Definition integerTicket (owner : string) (numbers : list Z) : LotteryTicket.t :=
  {| LotteryTicket._id := None;
     LotteryTicket.ticketNumbers := map JS.of_Z numbers;
     LotteryTicket.playerUUID := owner |}.

(** The integers from 1 to 49. *)
Definition lotteryNumbers : list Z := map Z.of_nat (seq 1 49).

(** ** Concrete runs *)

Module Scenario.

Definition lotteryConfig : Config.t :=
  {| Config.ticketPrice := 100; Config.initialJackpot := 500;
     Config.ticketCollection := "lottery-tickets" |}.

Definition alice : Character.t :=
  {| Character._id := "A"; Character.name := "Alice";
     Character.cash := 1000; Character.bank := 0 |}.

Definition bob : Character.t :=
  {| Character._id := "B"; Character.name := "Bob";
     Character.cash := 50; Character.bank := 10 |}.

Definition playerA : Player.t := {| Player.character_id := "A" |}.
Definition playerB : Player.t := {| Player.character_id := "B" |}.

Definition state0 : ASCLottery.t :=
  {| ASCLottery._id := Some "L"; ASCLottery.type := "lottery";
     ASCLottery.ticketPrice := 100; ASCLottery.jackpot := 500;
     ASCLottery.lastDrawDate := 0; ASCLottery.winningNumbers := [] |}.

(** A value of [Math.random()] that scales to the number [k] of [1,49]. *)
Definition sample (k : Z) : Z := ((k - 1) * 2 ^ 53 + 48) / 49.

Definition tape (i : nat) : Z :=
  sample (nth i [7; 7; 13; 21; 7; 34; 42; 49] 1).

(** 2024-11-01 19:00:00 UTC. *)
Definition evening : Z := 1730487600000.

Definition world0 : World :=
  {| misc_lottery := Some state0;
     tickets := [];
     characters := <["A" := alice]> (<["B" := bob]> ∅);
     notifications := [];
     ledger := [];
     timers := [];
     createOutcomes := [Some "t1"; Some "t2"];
     random := tape;
     randomCalls := 0;
     clock := evening |}.

Definition after {A} (r : option (A * World)) (w : World) : World :=
  match r with
  | Some (_, w') => w'
  | None => w
  end.

Definition ticketOf (id owner : string) (numbers : list Z) : string * LotteryTicket.t :=
  (id, {| LotteryTicket._id := None;
          LotteryTicket.ticketNumbers := map JS.of_Z numbers;
          LotteryTicket.playerUUID := owner |}).

(** Alice has bought a ticket. *)
Definition world1 : World :=
  after (buyTicket lotteryConfig playerA "1 2 3 4 5 6" world0) world0.

Definition state1 : ASCLottery.t := ASCLottery.set_jackpot 600 state0.

Definition drawn : list Z := [7; 13; 21; 34; 42; 49].

(** The draw has run on Alice's ticket. *)
Definition world2 : World :=
  after (drawWinningNumbers lotteryConfig 10 world1) world1.

(** Three tickets, one of a holder that is no known character, and a
    jackpot of 700. *)
Definition state700 : ASCLottery.t := ASCLottery.set_jackpot 700 state0.

Definition world3 : World :=
  set_misc_lottery (Some state700)
    (set_tickets [ticketOf "t1" "A" [1; 2; 3; 4; 5; 6];
                  ticketOf "t2" "B" [7; 13; 21; 34; 42; 49];
                  ticketOf "t3" "ghost" [9; 9; 9; 9; 9; 9]] world0).

Definition world3' : World :=
  after (drawWinningNumbers lotteryConfig 10 world3) world3.

(** A jackpot of 600 and no ticket, as after [/simulatedraw] has removed
    the tickets of a cycle. *)
Definition worldRollover : World := set_misc_lottery (Some state1) world0.

Definition worldRollover' : World :=
  after (drawWinningNumbers lotteryConfig 10 worldRollover) worldRollover.

(** A ticket in the store and no lottery state. *)
Definition worldNoState : World :=
  set_misc_lottery None
    (set_tickets [ticketOf "t1" "A" [1; 2; 3; 4; 5; 6]] world0).

(** The store refuses the next document. *)
Definition worldNoCreate : World := set_createOutcomes [None] world0.

(** The configuration after the ticket price was raised to 200, with the
    lottery state created under the price of 100. *)
Definition raisedConfig : Config.t :=
  {| Config.ticketPrice := 200; Config.initialJackpot := 500;
     Config.ticketCollection := "lottery-tickets" |}.

Definition worldRaised : World :=
  after (buyTicket raisedConfig playerA "1 2 3 4 5 6" world0) world0.

End Scenario.

(** * Properties *)

(** ** Ticket validator *)

Lemma existsb_In_iff {A} (f : A -> bool) (l : list A) :
  existsb f l = true <-> exists x, In x l /\ f x = true.
Proof. apply existsb_exists. Qed.

Lemma existsb_map {A B} (f : B -> bool) (g : A -> B) (l : list A) :
  existsb f (map g l) = existsb (fun x => f (g x)) l.
Proof. induction l as [|a l IH]; simpl; [reflexivity | now rewrite IH]. Qed.

(** C2, as the code has it: the validator fails exactly when splitting the
    input at every single space does not give 6 tokens, or [Number] of some
    token is NaN, or [Number] of some token is below 1 or above 49;
    otherwise it returns the 6 values of [Number], integer or not. *)
Theorem parseTicketNumbers_spec (s : string) :
  let tokens := JS.split " " s in
  (parseTicketNumbers s = None <->
     List.length tokens <> 6%nat
     \/ (exists t, In t tokens /\ JS.isNaN (JS.Number t) = true)
     \/ (exists t, In t tokens /\
           (JS.ltb (JS.Number t) (JS.of_Z 1) = true
            \/ JS.gtb (JS.Number t) (JS.of_Z 49) = true)))
  /\ (parseTicketNumbers s <> None ->
        parseTicketNumbers s = Some (map JS.Number tokens)
        /\ List.length (map JS.Number tokens) = 6%nat).
Proof.
  intros tokens. unfold parseTicketNumbers. fold tokens.
  rewrite length_map, !existsb_map.
  set (bn := existsb (fun x => JS.isNaN (JS.Number x)) tokens).
  set (br := existsb _ tokens).
  assert (Hn : bn = true <-> exists t, In t tokens /\ JS.isNaN (JS.Number t) = true)
    by apply existsb_In_iff.
  assert (Hr : br = true <-> exists t, In t tokens /\
                (JS.ltb (JS.Number t) (JS.of_Z 1) = true
                 \/ JS.gtb (JS.Number t) (JS.of_Z 49) = true)).
  { unfold br. rewrite existsb_In_iff.
    split; intros (t & Hin & Ht); exists t; (split; [exact Hin|]);
      now apply orb_true_iff. }
  clearbody bn br.
  destruct (Nat.eqb_spec (List.length tokens) 6) as [Hlen | Hlen];
    cbn [negb orb].
  - destruct bn; cbn [orb].
    + split; [|congruence]. split; [|reflexivity].
      intros _. right; left. now apply Hn.
    + destruct br.
      * split; [|congruence]. split; [|reflexivity].
        intros _. right; right. now apply Hr.
      * split; [|intros _; split; [reflexivity | exact Hlen]].
        split; [discriminate|]. intros [Hl | [H | H]].
        -- contradiction.
        -- apply Hn in H. discriminate H.
        -- apply Hr in H. discriminate H.
  - split; [|congruence]. split; [|reflexivity]. intros _. now left.
Qed.

(** C2 as claimed fails on a fractional numeral: the six tokens of
    ["1.5 2 3 4 5 6"] are in range and the first is not an integer, yet the
    validator returns the six numbers, 1.5 among them. *)
Lemma parseTicketNumbers_accepts_fraction :
  let s := "1.5 2 3 4 5 6" in
  Spec.tokens s = ["1.5"; "2"; "3"; "4"; "5"; "6"]
  /\ Spec.integerToken "1.5" = None
  /\ Spec.rejects s = true
  /\ parseTicketNumbers s
     = Some [S754_finite false 6755399441055744 (-52);
             JS.of_Z 2; JS.of_Z 3; JS.of_Z 4; JS.of_Z 5; JS.of_Z 6]
  /\ JS.isInteger (S754_finite false 6755399441055744 (-52)) = false
  /\ ~ (parseTicketNumbers s = None <-> Spec.rejects s = true).
Proof.
  cbv zeta.
  assert (Hp : parseTicketNumbers "1.5 2 3 4 5 6"
               = Some [S754_finite false 6755399441055744 (-52);
                       JS.of_Z 2; JS.of_Z 3; JS.of_Z 4; JS.of_Z 5; JS.of_Z 6])
    by (vm_compute; reflexivity).
  repeat split; try (vm_compute; reflexivity); try exact Hp.
  intros [_ H]. rewrite Hp in H. discriminate H. vm_compute. reflexivity.
Qed.

(** Tokens are cut at every single space, so a doubled space yields an
    empty seventh token and the ticket is refused. *)
Example parseTicketNumbers_double_space :
  Spec.rejects "1  2 3 4 5 6" = false
  /\ JS.split " " "1  2 3 4 5 6" = ["1"; ""; "2"; "3"; "4"; "5"; "6"]
  /\ parseTicketNumbers "1  2 3 4 5 6" = None.
Proof. repeat split; vm_compute; reflexivity. Qed.

Example parseTicketNumbers_five_tokens : parseTicketNumbers "1 2 3 4 5" = None.
Proof. vm_compute. reflexivity. Qed.

Example parseTicketNumbers_duplicates :
  parseTicketNumbers "7 7 7 7 7 7" = Some (repeat (JS.of_Z 7) 6).
Proof. vm_compute. reflexivity. Qed.

(** Splits a hypothesis [1 <= n <= 49] into its 49 cases. *)
Ltac each_number n H :=
  let Hin := fresh "Hin" in
  assert (Hin : In n (map Z.of_nat (seq 1 49)))
    by (apply in_map_iff; exists (Z.to_nat n);
        split; [lia | apply in_seq; lia]);
  clear H; vm_compute in Hin;
  repeat (destruct Hin as [<- | Hin]; [|]); [..|destruct Hin].

Lemma Number_numeral (n : Z) :
  1 <= n <= 49 ->
  JS.Number (Spec.numeral n) = JS.of_Z n
  /\ JS.isNaN (JS.of_Z n) = false
  /\ JS.ltb (JS.of_Z n) (JS.of_Z 1) || JS.gtb (JS.of_Z n) (JS.of_Z 49) = false.
Proof. intros H. each_number n H; vm_compute; repeat split. Qed.

Lemma split_numeral (n : Z) :
  1 <= n <= 49 ->
  JS.split " " (Spec.numeral n) = [Spec.numeral n]
  /\ forall s, JS.split " " (Spec.numeral n ++ String " " s)
               = Spec.numeral n :: JS.split " " s.
Proof. intros H. each_number n H; split; reflexivity. Qed.

Lemma split_join_numerals (ns : list Z) :
  ns <> [] ->
  List.Forall (fun n => 1 <= n <= 49) ns ->
  JS.split " " (JS.join " " (map Spec.numeral ns)) = map Spec.numeral ns.
Proof.
  induction ns as [|a [|b ns] IH]; intros Hne Hall; [congruence| |].
  - inversion_clear Hall as [|? ? Ha _]. cbn. now apply split_numeral.
  - inversion_clear Hall as [|? ? Ha Hrest].
    change (JS.join " " (map Spec.numeral (a :: b :: ns)))
      with (Spec.numeral a ++ String " " (JS.join " " (map Spec.numeral (b :: ns)))).
    destruct (split_numeral a Ha) as [_ ->].
    rewrite IH by (congruence || assumption). reflexivity.
Qed.

Lemma parse_joined_numerals (ns : list Z) :
  List.length ns = 6%nat ->
  List.Forall (fun n => 1 <= n <= 49) ns ->
  parseTicketNumbers (JS.join " " (map Spec.numeral ns)) = Some (map JS.of_Z ns).
Proof.
  intros Hlen Hall. unfold parseTicketNumbers.
  assert (Hne : ns <> []) by (intros ->; discriminate Hlen).
  rewrite split_join_numerals by assumption.
  rewrite map_map.
  assert (Hmap : map (fun n => JS.Number (Spec.numeral n)) ns = map JS.of_Z ns).
  { apply map_ext_in. intros n Hn. rewrite List.Forall_forall in Hall.
    now apply Number_numeral, Hall. }
  rewrite Hmap, length_map, Hlen, !existsb_map. cbn [Nat.eqb negb orb].
  assert (Hnan : existsb (fun n => JS.isNaN (JS.of_Z n)) ns = false).
  { apply not_true_is_false. intros Hex. apply existsb_exists in Hex as (n & Hn & Hx).
    rewrite List.Forall_forall in Hall.
    destruct (Number_numeral n (Hall n Hn)) as (_ & Hf & _). congruence. }
  assert (Hrng : existsb (fun n => JS.ltb (JS.of_Z n) (JS.of_Z 1)
                                   || JS.gtb (JS.of_Z n) (JS.of_Z 49)) ns = false).
  { apply not_true_is_false. intros Hex. apply existsb_exists in Hex as (n & Hn & Hx).
    rewrite List.Forall_forall in Hall.
    destruct (Number_numeral n (Hall n Hn)) as (_ & _ & Hf). congruence. }
  rewrite Hnan, Hrng. reflexivity.
Qed.

(** ** Purchase flow *)

Ltac run :=
  unfold bind, ret, NotificationAPI.sendAll, NotificationAPI.send,
    Database.get_ticket, Database.get_lottery, Database.update_lottery,
    Database.create_ticket, Database.getAll_tickets, Database.get_character,
    Database.deleteDocument, CurrencyAPI.sub, CurrencyAPI.add, Date_now,
    setTimeout in *.

Lemma findTicket_holds id w : holdsTicket id w -> findTicket id w <> None.
Proof.
  intros (d & Hin & Hd) Hnone. unfold findTicket in Hnone.
  apply (find_none _ _ Hnone) in Hin. rewrite Hd, String.eqb_refl in Hin.
  discriminate Hin.
Qed.


Section PurchaseProperties.

Variable lotteryConfig : Config.t.

Let price := Config.ticketPrice lotteryConfig.

(** C7: an identity that already holds a ticket cannot buy another one,
    whatever its balance: the call returns null, the currency API is not
    called, and tickets, balances and lottery state stay as they were. *)
Theorem buyTicket_duplicate_entry (player : Player.t) (numbers : string) (w : World) :
  holdsTicket (Player.character_id player) w ->
  exists w',
    buyTicket lotteryConfig player numbers w = Some (None, w')
    /\ tickets w' = tickets w
    /\ misc_lottery w' = misc_lottery w
    /\ characters w' = characters w
    /\ ledger w' = ledger w.
Proof.
  intros Hh. apply findTicket_holds in Hh. unfold findTicket in Hh.
  unfold buyTicket. destruct (parseTicketNumbers numbers) as [nums|].
  - run. destruct (List.find _ (tickets w)); [|congruence].
    cbn. eexists. split; [reflexivity|]. cbn. repeat split.
  - exists w. repeat split.
Qed.

(** C6: when the buyer cannot pay the ticket price, the call returns
    null, no ticket is created and the lottery state, jackpot included,
    is unchanged; so are all balances. *)
Theorem buyTicket_insufficient_funds (player : Player.t) (numbers : string) (w : World) :
  (forall c, characters w !! Player.character_id player = Some c ->
             Character.cash c < price) ->
  exists w',
    buyTicket lotteryConfig player numbers w = Some (None, w')
    /\ tickets w' = tickets w
    /\ misc_lottery w' = misc_lottery w
    /\ characters w' = characters w.
Proof.
  intros Hpoor. unfold buyTicket.
  destruct (parseTicketNumbers numbers) as [nums|];
    [|exists w; repeat split].
  run. destruct (List.find _ (tickets w)); cbn.
  - eexists. split; [reflexivity|]. cbn. repeat split.
  - destruct (characters w !! Player.character_id player) as [c|] eqn:Hc.
    + specialize (Hpoor c eq_refl). fold price.
      destruct (Z.leb_spec price (Character.cash c)); [lia|].
      cbn. eexists. split; [reflexivity|]. cbn. repeat split.
    + cbn. eexists. split; [reflexivity|]. cbn. repeat split.
Qed.

(** C10: validation, duplicate check and debit pass, and the store
    returns no id for the new ticket: the call returns null, the buyer
    stays debited by the ticket price, and the lottery state, jackpot
    included, is unchanged. *)
Theorem buyTicket_create_fails (player : Player.t) (numbers : string) (w : World)
    (ticketNumbers : list JS.number) (c : Character.t) :
  parseTicketNumbers numbers = Some ticketNumbers ->
  ~ holdsTicket (Player.character_id player) w ->
  characters w !! Player.character_id player = Some c ->
  price <= Character.cash c ->
  nextCreateResult w = None ->
  exists w' c',
    buyTicket lotteryConfig player numbers w = Some (None, w')
    /\ characters w' !! Player.character_id player = Some c'
    /\ Character.cash c' = Character.cash c - price
    /\ Character.bank c' = Character.bank c
    /\ misc_lottery w' = misc_lottery w
    /\ tickets w' = tickets w.
Proof.
  intros Hparse Hnew Hc Hrich Hcreate. unfold buyTicket. rewrite Hparse.
  run. destruct (List.find _ (tickets w)) as [d|] eqn:Hfind.
  { exfalso. apply Hnew. apply find_some in Hfind as [Hin Hd].
    exists d. split; [exact Hin|]. now apply String.eqb_eq. }
  cbn. rewrite Hc. fold price.
  destruct (Z.leb_spec price (Character.cash c)); [|lia].
  cbn. unfold nextCreateResult in Hcreate.
  destruct (createOutcomes w) as [|[id|] rest]; [|discriminate|]; cbn;
    eexists; eexists; (split; [reflexivity|]); cbn;
    rewrite lookup_insert_eq; repeat split.
Qed.

(** The two amounts of a successful purchase, by where the code reads
    them: the jackpot grows by the ticket price the lottery state records,
    the buyer's cash goes down by the configured ticket price. *)
Lemma buyTicket_success_amounts (player : Player.t) (numbers : string) (w w' : World)
    (st : ASCLottery.t) (ticket : LotteryTicket.t) :
  misc_lottery w = Some st ->
  buyTicket lotteryConfig player numbers w = Some (Some ticket, w') ->
  (ASCLottery.jackpot <$> misc_lottery w'
     = Some (ASCLottery.jackpot st + ASCLottery.ticketPrice st))
  /\ (exists c c',
        characters w !! Player.character_id player = Some c
        /\ characters w' !! Player.character_id player = Some c'
        /\ Character.cash c' = Character.cash c - price)
  /\ (ASCLottery.ticketPrice st = price ->
      ASCLottery.jackpot <$> misc_lottery w'
        = Some (ASCLottery.jackpot st + price)).
Proof.
  intros Hst Hbuy.
  assert (Hjack : ASCLottery.jackpot <$> misc_lottery w'
                    = Some (ASCLottery.jackpot st + ASCLottery.ticketPrice st)
                  /\ exists c c',
                       characters w !! Player.character_id player = Some c
                       /\ characters w' !! Player.character_id player = Some c'
                       /\ Character.cash c' = Character.cash c - price).
  { unfold buyTicket in Hbuy.
    destruct (parseTicketNumbers numbers) as [nums|]; [|discriminate].
    run. destruct (List.find _ (tickets w)); cbn in Hbuy; [discriminate|].
    destruct (characters w !! Player.character_id player) as [c|] eqn:Hc;
      cbn in Hbuy; [|discriminate].
    fold price in Hbuy.
    destruct (price <=? Character.cash c); cbn in Hbuy; [|discriminate].
    destruct (createOutcomes w) as [|[id|] rest]; cbn in Hbuy;
      [discriminate| |discriminate].
    destruct id as [|a id]; cbn in Hbuy; [discriminate|].
    rewrite !Hst in Hbuy. cbn in Hbuy.
    injection Hbuy as _ <-. cbn. rewrite ?Hst. cbn. split; [reflexivity|].
    exists c. eexists. split; [reflexivity|].
    rewrite lookup_insert_eq. split; reflexivity. }
  destruct Hjack as [Hj Hc]. split; [exact Hj|]. split; [exact Hc|].
  intros <-. exact Hj.
Qed.

(** C8: after a successful purchase with a lottery state in the store, the
    stored jackpot is the jackpot from before plus the ticket price, and
    the buyer's cash is debited by the ticket price.  The ticket price is
    the configured one, which the lottery state records as well:
    [initializeLottery] copies it into the state it creates and no
    operation writes it afterwards ([priceAgrees_initializeLottery],
    [priceAgrees_buyTicket], [priceAgrees_drawWinningNumbers],
    [priceAgrees_simulatedrawCommand]). *)
Theorem buyTicket_success_ticket_price (player : Player.t) (numbers : string)
    (w w' : World) (st : ASCLottery.t) (ticket : LotteryTicket.t) :
  misc_lottery w = Some st ->
  ASCLottery.ticketPrice st = Config.ticketPrice lotteryConfig ->
  buyTicket lotteryConfig player numbers w = Some (Some ticket, w') ->
  (ASCLottery.jackpot <$> misc_lottery w'
     = Some (ASCLottery.jackpot st + Config.ticketPrice lotteryConfig))
  /\ (exists c c',
        characters w !! Player.character_id player = Some c
        /\ characters w' !! Player.character_id player = Some c'
        /\ Character.cash c' = Character.cash c - Config.ticketPrice lotteryConfig).
Proof.
  intros Hst Hprice Hbuy.
  destruct (buyTicket_success_amounts player numbers w w' st ticket Hst Hbuy)
    as (_ & Hcash & Hjackpot).
  split; [exact (Hjackpot Hprice) | exact Hcash].
Qed.

End PurchaseProperties.

(** ** Draw engine *)

(** *** The rejection loop *)

Lemma floor_scaled_bounds (r n : Z) :
  0 <= r < 2 ^ 53 -> 0 < n -> 0 <= Math.floor_scaled r n < n.
Proof.
  intros Hr Hn. unfold Math.floor_scaled. split.
  - apply Z.div_pos; nia.
  - apply Z.div_lt_upper_bound; nia.
Qed.

Lemma Set_add_NoDup (x : Z) (s : list Z) : List.NoDup s -> List.NoDup (Set_add x s).
Proof.
  intros Hs. unfold Set_add. destruct (existsb (Z.eqb x) s) eqn:Hex; [exact Hs|].
  apply NoDup_ListNoDup, NoDup_app. apply NoDup_ListNoDup in Hs.
  split; [exact Hs|]. split.
  - intros y Hy Hy'. apply list_elem_of_In in Hy, Hy'.
    destruct Hy' as [<-|[]].
    assert (existsb (Z.eqb x) s = true)
      by (apply existsb_exists; exists x; split; [exact Hy | apply Z.eqb_refl]).
    congruence.
  - apply NoDup_singleton.
Qed.

Lemma Set_add_Forall (P : Z -> Prop) (x : Z) (s : list Z) :
  P x -> List.Forall P s -> List.Forall P (Set_add x s).
Proof.
  intros Hx Hs. unfold Set_add. destruct (existsb (Z.eqb x) s); [exact Hs|].
  apply Forall_app. split; [exact Hs | constructor; [exact Hx | constructor]].
Qed.

Lemma Set_add_length (x : Z) (s : list Z) :
  (List.length s <= List.length (Set_add x s) <= S (List.length s))%nat.
Proof.
  unfold Set_add. destruct (existsb (Z.eqb x) s); [lia|].
  rewrite length_app. cbn. lia.
Qed.

Lemma generateRandomNumbers_loop_spec (fuel : nat) (count min max : Z) :
  min <= max ->
  forall (numbers : list Z) (w : World) (result : list Z) (w' : World),
    List.NoDup numbers ->
    List.Forall (inRange min max) numbers ->
    Z.of_nat (List.length numbers) <= count ->
    generateRandomNumbers_loop fuel count min max numbers w = Some (result, w') ->
    List.NoDup result
    /\ List.Forall (inRange min max) result
    /\ Z.of_nat (List.length result) = count
    /\ exists n, w' = set_randomCalls n w.
Proof.
  intros Hmm. induction fuel as [|fuel IH]; intros numbers w result w' Hnd Hrg Hlen Hrun;
    cbn [generateRandomNumbers_loop] in Hrun;
    destruct (Z.ltb_spec (Z.of_nat (List.length numbers)) count) as [Hlt | Hge].
  - discriminate Hrun.
  - injection Hrun as <- <-. repeat split; [exact Hnd | exact Hrg | lia |].
    exists (randomCalls w). now destruct w.
  - unfold bind, Math.random in Hrun.
    set (r := random w (randomCalls w) mod 2 ^ 53) in Hrun.
    assert (Hr : 0 <= r < 2 ^ 53) by (apply Z.mod_pos_bound; lia).
    pose proof (floor_scaled_bounds r (max - min + 1) Hr ltac:(lia)) as Hfs.
    pose proof (Set_add_length (Math.floor_scaled r (max - min + 1) + min) numbers).
    apply IH in Hrun as (Hnd' & Hrg' & Hlen' & n & ->).
    + repeat split; [exact Hnd' | exact Hrg' | exact Hlen' |]. now exists n.
    + now apply Set_add_NoDup.
    + apply Set_add_Forall; [unfold inRange; lia | exact Hrg].
    + lia.
  - injection Hrun as <- <-. repeat split; [exact Hnd | exact Hrg | lia |].
    exists (randomCalls w). now destruct w.
Qed.

Lemma generateRandomNumbers_spec (fuel : nat) (count min max : Z)
    (w : World) (result : list Z) (w' : World) :
  min <= max -> 0 <= count ->
  generateRandomNumbers fuel count min max w = Some (result, w') ->
  List.NoDup result
  /\ List.Forall (inRange min max) result
  /\ Z.of_nat (List.length result) = count
  /\ exists n, w' = set_randomCalls n w.
Proof.
  intros Hmm Hc. apply generateRandomNumbers_loop_spec;
    [exact Hmm | constructor | constructor | cbn; lia].
Qed.

Lemma generateRandomNumbers_loop_step (fuel : nat) (count min max : Z) (numbers : list Z) :
  generateRandomNumbers_loop (S fuel) count min max numbers
  = if Z.of_nat (List.length numbers) <? count then
      let* r := Math.random in
      generateRandomNumbers_loop fuel count min max
        (Set_add (Math.floor_scaled r (max - min + 1) + min) numbers)
    else ret numbers.
Proof. reflexivity. Qed.

(** More fuel never changes the outcome of a run that returned. *)
Lemma generateRandomNumbers_loop_fuel (fuel : nat) (count min max : Z) :
  forall (numbers : list Z) (w : World) (r : list Z * World),
    generateRandomNumbers_loop fuel count min max numbers w = Some r ->
    generateRandomNumbers_loop (S fuel) count min max numbers w = Some r.
Proof.
  induction fuel as [|fuel IH]; intros numbers w r Hrun.
  - cbn [generateRandomNumbers_loop] in *.
    destruct (Z.of_nat (List.length numbers) <? count); [discriminate | exact Hrun].
  - rewrite generateRandomNumbers_loop_step in Hrun |- *.
    destruct (Z.of_nat (List.length numbers) <? count); [|exact Hrun].
    unfold bind in *. destruct (Math.random w) as [[x w1]|]; [|discriminate].
    now apply IH.
Qed.

(** The loop returns as soon as the random source has produced enough
    distinct numbers: fuel [k] is enough when [k] calls produce [count]. *)
Lemma generateRandomNumbers_loop_returns (k : nat) (count min max : Z) :
  forall (numbers : list Z) (w : World),
    count <= Z.of_nat (List.length (drawnAfter (random w) min max k (randomCalls w) numbers)) ->
    exists r, generateRandomNumbers_loop k count min max numbers w = Some r.
Proof.
  induction k as [|k IH]; intros numbers w Hk.
  - cbn in *. destruct (Z.ltb_spec (Z.of_nat (List.length numbers)) count); [lia|].
    eexists. reflexivity.
  - rewrite generateRandomNumbers_loop_step.
    destruct (Z.of_nat (List.length numbers) <? count); [|eexists; reflexivity].
    unfold bind, Math.random. apply IH. exact Hk.
Qed.

(** *** The payout loop *)

Lemma ticketsOf_cons id t l :
  ticketsOf id (t :: l) = (if ownedBy id t then 1 else 0) + ticketsOf id l.
Proof.
  unfold ticketsOf. cbn [List.filter]. destruct (ownedBy id t); cbn [List.length]; lia.
Qed.

Lemma payWinners_spec (share : Z) (l : list LotteryTicket.t) :
  forall (winnerName : string) (w : World),
  exists name' w',
    payWinners l share winnerName w = Some (name', w')
    /\ misc_lottery w' = misc_lottery w
    /\ tickets w' = tickets w
    /\ notifications w' = notifications w
    /\ clock w' = clock w
    /\ ledger w' = (ledger w ++ credits (characters w) share l)%list
    /\ credited share l (characters w) (characters w').
Proof.
  induction l as [|t l IH]; intros winnerName w.
  - exists winnerName, w. cbn. unfold credits. cbn. rewrite app_nil_r.
    repeat split. intros id. destruct (characters w !! id); [|exact I].
    unfold ticketsOf. cbn. repeat split. lia.
  - cbn [payWinners]. run.
    set (uuid := LotteryTicket.playerUUID t).
    destruct (characters w !! uuid) as [c|] eqn:Hc; cbn.
    + rewrite Hc.
      match goal with |- context [payWinners l share ?n ?w1] =>
        destruct (IH n w1) as (name' & w' & Hrun & Hm & Ht & Hn & Hk & Hl & Hcr) end.
      exists name', w'. cbn in *. rewrite Hrun, Hm, Ht, Hn, Hk, Hl.
      repeat split.
      * unfold credits. cbn [List.filter]. fold uuid. rewrite Hc.
        rewrite bool_decide_eq_true_2 by eauto. cbn [map].
        rewrite <- app_assoc. cbn. f_equal. f_equal. f_equal.
        apply filter_ext_in_iff. intros x _. f_equal.
        apply bool_decide_ext. rewrite lookup_insert.
        case_decide as Hx; [|tauto]. split; eauto. intros _. rewrite <- Hx, Hc. eauto.
      * intros id. specialize (Hcr id). rewrite ticketsOf_cons.
        unfold ownedBy at 1. fold uuid.
        rewrite lookup_insert in Hcr.
        destruct (decide (uuid = id)) as [->|Hne].
        -- rewrite Hc. rewrite String.eqb_refl.
           destruct (characters w' !! id); [|contradiction].
           cbn in Hcr. destruct Hcr as (Hb & Hca & Hna). repeat split; [lia|exact Hca|exact Hna].
        -- destruct (String.eqb_spec uuid id); [contradiction|].
           rewrite Z.add_0_l. exact Hcr.
    + destruct (IH winnerName w) as (name' & w' & Hrun & Hm & Ht & Hn & Hk & Hl & Hcr).
      exists name', w'. rewrite Hrun, Hm, Ht, Hn, Hk, Hl. repeat split.
      * unfold credits. cbn [List.filter]. fold uuid. rewrite Hc.
        rewrite bool_decide_eq_false_2; [reflexivity|]. intros [? ?]. discriminate.
      * intros id. specialize (Hcr id). rewrite ticketsOf_cons.
        unfold ownedBy at 1. fold uuid.
        destruct (String.eqb_spec uuid id) as [<-|Hne].
        -- rewrite Hc in *. exact Hcr.
        -- rewrite Z.add_0_l. exact Hcr.
Qed.

(** *** The delete loop *)

Lemma delete_all_spec (ds : list (string * LotteryTicket.t)) :
  forall w : World,
    tickets w = ds ->
    exists w',
      forEach (map Database.stored ds)
              (fun ticket => Database.deleteDocument (LotteryTicket._id ticket)) w
      = Some (tt, w')
      /\ tickets w' = []
      /\ misc_lottery w' = misc_lottery w
      /\ characters w' = characters w
      /\ ledger w' = ledger w
      /\ notifications w' = notifications w.
Proof.
  induction ds as [|d ds IH]; intros w Hw.
  - exists w. cbn. repeat split. exact Hw.
  - cbn [map forEach]. run. cbn. rewrite Hw. cbn. rewrite String.eqb_refl.
    destruct (IH (set_tickets ds w) eq_refl) as (w' & Hrun & Ht & Hm & Hc & Hl & Hn).
    exists w'. rewrite Hrun. repeat split; assumption.
Qed.

(** *** One draw *)

(** Replaces the delete loop in the goal by the world it returns. *)
Ltac delete_loop_returns :=
  match goal with
  | |- context [forEach (map Database.stored ?l) ?f ?ww] =>
      let w3 := fresh "w" in
      let Hdel := fresh "Hdel" in
      destruct (delete_all_spec l ww eq_refl) as (w3 & Hdel & _);
      replace (forEach (map Database.stored l) f ww) with (Some (tt, w3))
        by (symmetry; exact Hdel)
  end.

Section DrawProperties.

Variable lotteryConfig : Config.t.

Lemma drawWinningNumbers_spec (fuel : nat) (w w' : World) (st : ASCLottery.t)
    (numbers : list Z) :
  misc_lottery w = Some st ->
  drawWinningNumbers lotteryConfig fuel w = Some (numbers, w') ->
  let all := map Database.stored (tickets w) in
  let share := ASCLottery.jackpot st / Z.of_nat (List.length all) in
  List.NoDup numbers
  /\ List.Forall (inRange 1 49) numbers
  /\ List.length numbers = 6%nat
  /\ misc_lottery w'
     = Some (drawnState lotteryConfig st numbers (clock w)
                        (negb (Nat.eqb (List.length (tickets w)) 0)))
  /\ tickets w' = []
  /\ ledger w' = (ledger w ++ credits (characters w) share all)%list
  /\ credited share all (characters w) (characters w').
Proof.
  intros Hst Hrun all share.
  unfold drawWinningNumbers in Hrun. unfold bind at 1 in Hrun.
  unfold Database.get_lottery at 1 in Hrun. rewrite Hst in Hrun.
  unfold bind at 1 in Hrun.
  destruct (generateRandomNumbers fuel 6 numberRange.min numberRange.max w)
    as [[nums w1]|] eqn:Hgen; [|discriminate].
  apply generateRandomNumbers_spec in Hgen as (Hnd & Hrg & Hlen & n & ->);
    [|unfold numberRange.min, numberRange.max; lia | lia].
  assert (Hlen' : List.length nums = 6%nat) by lia. clear Hlen.
  run. cbn in Hrun. rewrite Hst in Hrun. cbn in Hrun.
  destruct (tickets w) as [|d ds] eqn:Htk.
  - match type of Hrun with context [if ?b then _ else _] =>
      replace b with false in Hrun by reflexivity end.
    cbn in Hrun. rewrite ?Htk in Hrun. cbn in Hrun.
    injection Hrun as <- <-. subst all share. cbn.
    rewrite app_nil_r.
    repeat split; try assumption.
    intros id. destruct (characters w !! id); [|exact I].
    unfold ticketsOf. cbn. repeat split. lia.
  - cbn [map List.length] in Hrun.
    match type of Hrun with context [if ?b then _ else _] =>
      replace b with true in Hrun by (symmetry; apply Z.ltb_lt; lia) end.
    unfold bind in Hrun.
    match type of Hrun with context [payWinners ?l ?s ?nm ?ww] =>
      destruct (payWinners_spec s l nm ww)
        as (name' & w2 & Hpay & Hm2 & Ht2 & Hn2 & Hk2 & Hl2 & Hc2);
      rewrite Hpay in Hrun
    end.
    cbn [misc_lottery tickets notifications clock ledger characters
         set_misc_lottery set_randomCalls] in Hm2, Ht2, Hn2, Hk2, Hl2, Hc2.
    rewrite Hm2 in Hrun.
    cbn [misc_lottery tickets notifications clock ledger characters
         set_misc_lottery set_notifications] in Hrun.
    rewrite Ht2, Htk in Hrun.
    match type of Hrun with context [forEach (map Database.stored ?l) ?f ?ww] =>
      destruct (delete_all_spec l ww) as (w3 & Hdel & Ht3 & Hm3 & Hc3 & Hl3 & Hn3);
        [cbn; congruence|];
      replace (forEach (map Database.stored l) f ww) with (Some (tt, w3)) in Hrun
        by (symmetry; exact Hdel)
    end.
    cbn in Hrun. injection Hrun as <- <-.
    cbn [misc_lottery tickets notifications clock ledger characters
         set_misc_lottery set_notifications] in Hm3, Hc3, Hl3.
    rewrite Hm3, Ht3, Hl3, Hc3, Hl2.
    repeat split; assumption.
Qed.

(** Without a lottery state the draw does nothing and returns no numbers. *)
Lemma drawWinningNumbers_no_state (fuel : nat) (w : World) :
  misc_lottery w = None ->
  drawWinningNumbers lotteryConfig fuel w = Some ([], w).
Proof.
  intros Hst. unfold drawWinningNumbers, bind, Database.get_lottery.
  now rewrite Hst.
Qed.

(** The draw returns as soon as the rejection loop does: fuel [k] is
    enough when [k] calls of [Math.random] produce six distinct numbers. *)
Lemma drawWinningNumbers_returns (k : nat) (w : World) :
  6 <= Z.of_nat (List.length
                   (drawnAfter (random w) numberRange.min numberRange.max k
                               (randomCalls w) [])) ->
  exists r, drawWinningNumbers lotteryConfig k w = Some r.
Proof.
  intros Hk. destruct (misc_lottery w) as [st|] eqn:Hst;
    [|rewrite drawWinningNumbers_no_state by exact Hst; eauto].
  unfold drawWinningNumbers. unfold bind at 1.
  unfold Database.get_lottery at 1. rewrite Hst. unfold bind at 1.
  destruct (generateRandomNumbers_loop_returns k 6 _ _ [] w Hk) as [[nums w1] Hgen].
  unfold generateRandomNumbers. rewrite Hgen.
  run. cbn [misc_lottery]. unfold bind.
  destruct (misc_lottery w1); cbn;
    match goal with |- context [if ?b then _ else _] => destruct b end;
    try match goal with |- context [payWinners ?l ?s ?nm ?ww] =>
          destruct (payWinners_spec s l nm ww) as (name' & w2 & -> & _);
          destruct (misc_lottery w2)
        end;
    delete_loop_returns; eauto.
Qed.

End DrawProperties.

(** ** Draw scheduler *)

Section DateProperties.

Lemma MonthFromTime_range (t : Z) : 0 <= JSDate.MonthFromTime t <= 11.
Proof.
  unfold JSDate.MonthFromTime.
  repeat match goal with |- context [if ?b then _ else _] => destruct b end; lia.
Qed.

(** The civil date of a time value determines its day number. *)
Lemma MakeDay_of_time (t : Z) :
  JSDate.MakeDay (JSDate.YearFromTime t) (JSDate.MonthFromTime t) (JSDate.DateFromTime t)
  = JSDate.Day t.
Proof.
  pose proof (MonthFromTime_range t) as Hm.
  unfold JSDate.MakeDay.
  rewrite Z.div_small, Z.mod_small by lia. rewrite Z.add_0_r.
  unfold JSDate.DateFromTime, JSDate.DayWithinYear.
  fold (JSDate.InLeapYear t). lia.
Qed.

Lemma MakeDay_next_date (y m d : Z) :
  JSDate.MakeDay y m (d + 1) = JSDate.MakeDay y m d + 1.
Proof. unfold JSDate.MakeDay. lia. Qed.

Lemma Day_MakeDate (day time : Z) :
  0 <= time < JSDate.msPerDay -> JSDate.Day (JSDate.MakeDate day time) = day.
Proof.
  intros Ht. unfold JSDate.Day, JSDate.MakeDate.
  rewrite Z.add_comm, Z.div_add by (unfold JSDate.msPerDay; lia).
  rewrite Z.div_small by exact Ht. lia.
Qed.

Lemma TimeWithinDay_MakeDate (day time : Z) :
  0 <= time < JSDate.msPerDay ->
  JSDate.TimeWithinDay (JSDate.MakeDate day time) = time.
Proof.
  intros Ht. unfold JSDate.TimeWithinDay, JSDate.MakeDate.
  rewrite Z.add_comm, Z.mod_add by (unfold JSDate.msPerDay; lia).
  now apply Z.mod_small.
Qed.

(** Year, month and date are functions of the day number. *)
Lemma YearFromTime_Day (t t' : Z) :
  JSDate.Day t = JSDate.Day t' -> JSDate.YearFromTime t = JSDate.YearFromTime t'.
Proof. intros H. unfold JSDate.YearFromTime. now rewrite H. Qed.

Lemma MonthFromTime_Day (t t' : Z) :
  JSDate.Day t = JSDate.Day t' -> JSDate.MonthFromTime t = JSDate.MonthFromTime t'.
Proof.
  intros H. unfold JSDate.MonthFromTime, JSDate.DayWithinYear, JSDate.InLeapYear.
  now rewrite (YearFromTime_Day t t' H), H.
Qed.

Lemma DateFromTime_Day (t t' : Z) :
  JSDate.Day t = JSDate.Day t' -> JSDate.DateFromTime t = JSDate.DateFromTime t'.
Proof.
  intros H. unfold JSDate.DateFromTime, JSDate.DayWithinYear, JSDate.InLeapYear.
  now rewrite (MonthFromTime_Day t t' H), (YearFromTime_Day t t' H), H.
Qed.

End DateProperties.

Section SchedulerProperties.

Variable LocalTZA : Z.

Lemma drawTime_within_day :
  0 <= JSDate.MakeTime drawTime.hour drawTime.minute 0 0 < JSDate.msPerDay.
Proof. vm_compute. split; [discriminate | reflexivity]. Qed.

Lemma LocalTime_UTC (t : Z) : JSDate.LocalTime LocalTZA (JSDate.UTC LocalTZA t) = t.
Proof. unfold JSDate.LocalTime, JSDate.UTC. lia. Qed.

(** C9: the scheduler aims at 18:00 local time of the current day when
    that instant has not passed yet, and at 18:00 of the following day
    otherwise; invoked at 19:00 it aims at 18:00 of the following day.
    The timer it sets fires at that instant.  The hypothesis leaves out
    the years 0 to 99, which [new Date(year, ...)] reads as 1900 to 1999
    and which the clock of a running server never shows. *)
Theorem scheduleDraw_next_fire (now : Z) :
  ~ (0 <= JSDate.getFullYear LocalTZA now <= 99) ->
  let today := JSDate.Day (JSDate.LocalTime LocalTZA now) in
  nextDrawAfter LocalTZA now
    = (if now <=? drawInstant LocalTZA today then drawInstant LocalTZA today
       else drawInstant LocalTZA (today + 1))
  /\ (JSDate.TimeWithinDay (JSDate.LocalTime LocalTZA now)
        = JSDate.MakeTime 19 0 0 0 ->
      nextDrawAfter LocalTZA now = drawInstant LocalTZA (today + 1))
  /\ (forall w, clock w = now ->
        scheduleDraw LocalTZA w
        = Some (tt, set_timers
                      (timers w ++ [{| delay := nextDrawAfter LocalTZA now - now |}]) w)).
Proof.
  intros Hyear today.
  assert (Hnext : nextDrawAfter LocalTZA now
                  = if now <=? drawInstant LocalTZA today then drawInstant LocalTZA today
                    else drawInstant LocalTZA (today + 1)).
  { assert (Hfull : JSDate.MakeFullYear (JSDate.getFullYear LocalTZA now)
                    = JSDate.getFullYear LocalTZA now).
    { unfold JSDate.MakeFullYear.
      destruct (Z.leb_spec 0 (JSDate.getFullYear LocalTZA now));
        destruct (Z.leb_spec (JSDate.getFullYear LocalTZA now) 99);
        cbn [andb]; try reflexivity. exfalso. apply Hyear. lia. }
    assert (Htoday : JSDate.construct LocalTZA
                       (JSDate.getFullYear LocalTZA now) (JSDate.getMonth LocalTZA now)
                       (JSDate.getDate LocalTZA now) drawTime.hour drawTime.minute 0 0
                     = drawInstant LocalTZA today).
    { unfold JSDate.construct. rewrite Hfull.
      unfold JSDate.getFullYear, JSDate.getMonth, JSDate.getDate.
      rewrite MakeDay_of_time. reflexivity. }
    unfold nextDrawAfter. rewrite Htoday.
    destruct (Z.gtb_spec now (drawInstant LocalTZA today)) as [Hgt | Hle];
      destruct (Z.leb_spec now (drawInstant LocalTZA today)); try lia.
    assert (Hlocal : JSDate.LocalTime LocalTZA (drawInstant LocalTZA today)
                     = JSDate.MakeDate today
                         (JSDate.MakeTime drawTime.hour drawTime.minute 0 0))
      by apply LocalTime_UTC.
    assert (Hday : JSDate.Day (JSDate.LocalTime LocalTZA (drawInstant LocalTZA today))
                   = JSDate.Day (JSDate.LocalTime LocalTZA now))
      by (rewrite Hlocal; apply Day_MakeDate, drawTime_within_day).
    unfold JSDate.setDate, JSDate.getDate.
    rewrite MakeDay_next_date.
    rewrite (YearFromTime_Day _ _ Hday), (MonthFromTime_Day _ _ Hday),
      (DateFromTime_Day _ _ Hday), MakeDay_of_time.
    rewrite Hlocal, TimeWithinDay_MakeDate by apply drawTime_within_day.
    reflexivity. }
  split; [exact Hnext|]. split.
  - intros H19. rewrite Hnext.
    destruct (Z.leb_spec now (drawInstant LocalTZA today)) as [Hle|]; [|reflexivity].
    exfalso. unfold drawInstant, JSDate.UTC, JSDate.MakeDate in Hle.
    unfold today, JSDate.Day in Hle. unfold JSDate.TimeWithinDay in H19.
    unfold JSDate.LocalTime in *.
    pose proof (Z.div_mod (now + LocalTZA) JSDate.msPerDay ltac:(discriminate)) as Hdm.
    rewrite H19 in Hdm.
    change (JSDate.MakeTime 19 0 0 0) with 68400000 in Hdm.
    change (JSDate.MakeTime drawTime.hour drawTime.minute 0 0) with 64800000 in Hle.
    lia.
  - intros w <-. reflexivity.
Qed.

End SchedulerProperties.

Section DateSanity.

(** [YearFromTime t] is the year in which day [Day t] falls. *)
Lemma YearFromTime_spec (t : Z) :
  JSDate.DayFromYear (JSDate.YearFromTime t) <= JSDate.Day t
  < JSDate.DayFromYear (JSDate.YearFromTime t + 1).
Proof.
  unfold JSDate.YearFromTime, JSDate.DayFromYear. cbv zeta.
  generalize (JSDate.Day t). intros d.
  match goal with |- context [if ?a <? ?b then _ else _] =>
    destruct (Z.ltb_spec a b) end;
    Z.div_mod_to_equations; lia.
Qed.

Lemma DaysInYear_spec (y : Z) :
  JSDate.DaysInYear y = JSDate.DayFromYear (y + 1) - JSDate.DayFromYear y.
Proof.
  unfold JSDate.DaysInYear, JSDate.DayFromYear.
  destruct (Z.eqb_spec (y mod 4) 0); destruct (Z.eqb_spec (y mod 100) 0);
    destruct (Z.eqb_spec (y mod 400) 0); cbn [andb orb negb];
    Z.div_mod_to_equations; lia.
Qed.

Lemma DayWithinYear_range (t : Z) :
  0 <= JSDate.DayWithinYear t < JSDate.DaysInYear (JSDate.YearFromTime t).
Proof.
  pose proof (YearFromTime_spec t). rewrite DaysInYear_spec.
  unfold JSDate.DayWithinYear. lia.
Qed.

End DateSanity.

(** ** The claims about the draw *)

Section DrawClaims.

Variable lotteryConfig : Config.t.

(** C4: a draw that returns with a lottery state in the store produces
    exactly 6 pairwise distinct numbers, each in [1,49]; they are the
    winning numbers the store holds afterwards and the value returned. *)
Theorem drawWinningNumbers_six_distinct (fuel : nat) (w w' : World)
    (st : ASCLottery.t) (numbers : list Z) :
  misc_lottery w = Some st ->
  drawWinningNumbers lotteryConfig fuel w = Some (numbers, w') ->
  List.length numbers = 6%nat
  /\ List.NoDup numbers
  /\ List.Forall (fun n => 1 <= n <= 49) numbers
  /\ ASCLottery.winningNumbers <$> misc_lottery w' = Some numbers.
Proof.
  intros Hst Hrun.
  destruct (drawWinningNumbers_spec lotteryConfig fuel w w' st numbers Hst Hrun)
    as (Hnd & Hrg & Hlen & Hm & _).
  repeat split; [exact Hlen | exact Hnd | exact Hrg |].
  rewrite Hm. unfold drawnState. cbn.
  destruct (negb _); reflexivity.
Qed.

(** C1, as the code has it: after a draw with a lottery state in the
    store, the stored jackpot is the configured initial jackpot when at
    least one ticket existed at draw time, and is the jackpot from before
    the draw when there was none. *)
Theorem drawWinningNumbers_jackpot (fuel : nat) (w w' : World)
    (st : ASCLottery.t) (numbers : list Z) :
  misc_lottery w = Some st ->
  drawWinningNumbers lotteryConfig fuel w = Some (numbers, w') ->
  (tickets w <> [] ->
   ASCLottery.jackpot <$> misc_lottery w' = Some (Config.initialJackpot lotteryConfig))
  /\ (tickets w = [] ->
      ASCLottery.jackpot <$> misc_lottery w' = Some (ASCLottery.jackpot st)).
Proof.
  intros Hst Hrun.
  destruct (drawWinningNumbers_spec lotteryConfig fuel w w' st numbers Hst Hrun)
    as (_ & _ & _ & Hm & _).
  rewrite Hm. unfold drawnState.
  split; intros Htk; destruct (tickets w); try congruence; reflexivity.
Qed.

(** C5, as the code has it: after a draw with a lottery state in the
    store the ticket collection is empty, whether or not tickets existed
    and whether or not the payout step ran. *)
Theorem drawWinningNumbers_clears_tickets (fuel : nat) (w w' : World)
    (st : ASCLottery.t) (numbers : list Z) :
  misc_lottery w = Some st ->
  drawWinningNumbers lotteryConfig fuel w = Some (numbers, w') ->
  tickets w' = [].
Proof.
  intros Hst Hrun.
  now destruct (drawWinningNumbers_spec lotteryConfig fuel w w' st numbers Hst Hrun)
    as (_ & _ & _ & _ & Ht & _).
Qed.

(** C3: in a draw with [N >= 1] tickets and jackpot [J], the currency API
    receives one credit of exactly [J / N] to the bank account per ticket
    whose holder is a known character, nothing else; so such a holder's
    bank balance grows by [J / N] for each ticket held, by exactly
    [J / N] for the holder of one ticket; the jackpot is then the
    configured initial value.  Ticket numbers and winning numbers play no
    part: a ticket is paid whether or not [checkWinningTicket] holds. *)
Theorem drawWinningNumbers_payout (fuel : nat) (w w' : World)
    (st : ASCLottery.t) (numbers : list Z) :
  misc_lottery w = Some st ->
  tickets w <> [] ->
  drawWinningNumbers lotteryConfig fuel w = Some (numbers, w') ->
  let all := map Database.stored (tickets w) in
  let share := ASCLottery.jackpot st / Z.of_nat (List.length (tickets w)) in
  ledger w' = (ledger w ++ credits (characters w) share all)%list
  /\ (forall ticket,
        In ticket all ->
        is_Some (characters w !! LotteryTicket.playerUUID ticket) ->
        In (LedgerAdd (LotteryTicket.playerUUID ticket) bank share)
           (credits (characters w) share all))
  /\ (forall id c,
        characters w !! id = Some c ->
        exists c',
          characters w' !! id = Some c'
          /\ Character.bank c' = Character.bank c + share * ticketsOf id all
          /\ Character.cash c' = Character.cash c)
  /\ (forall id c,
        characters w !! id = Some c ->
        ticketsOf id all = 1 ->
        exists c',
          characters w' !! id = Some c'
          /\ Character.bank c' = Character.bank c + share)
  /\ ASCLottery.jackpot <$> misc_lottery w' = Some (Config.initialJackpot lotteryConfig).
Proof.
  intros Hst Htk Hrun all share.
  destruct (drawWinningNumbers_spec lotteryConfig fuel w w' st numbers Hst Hrun)
    as (_ & _ & _ & Hm & _ & Hl & Hc).
  rewrite length_map in Hl, Hc. fold all share in Hl, Hc.
  assert (Hbal : forall id c,
             characters w !! id = Some c ->
             exists c',
               characters w' !! id = Some c'
               /\ Character.bank c' = Character.bank c + share * ticketsOf id all
               /\ Character.cash c' = Character.cash c).
  { intros id c Hid. specialize (Hc id). rewrite Hid in Hc.
    destruct (characters w' !! id) as [c'|]; [|contradiction].
    exists c'. destruct Hc as (Hb & Hca & _). repeat split; assumption. }
  split; [exact Hl|]. split; [|split; [exact Hbal|split]].
  - intros ticket Hin Hres. unfold credits. apply in_map_iff.
    exists ticket. split; [reflexivity|]. apply filter_In. split; [exact Hin|].
    now apply bool_decide_eq_true_2.
  - intros id c Hid Hone. destruct (Hbal id c Hid) as (c' & Hc' & Hb & _).
    exists c'. split; [exact Hc'|]. rewrite Hb, Hone. lia.
  - rewrite Hm. unfold drawnState. destruct (tickets w); [congruence|reflexivity].
Qed.

End DrawClaims.

(** The scenario of the specification: price 100, jackpot 500; A buys a
    ticket (cash 1000 to 900, jackpot 600); the draw on A's ticket alone
    pays A 600, resets the jackpot to 500 and removes the ticket; A can buy
    again. *)
Example scenario_buy_draw_buy :
  (ASCLottery.jackpot <$> misc_lottery Scenario.world1 = Some 600
   /\ Character.cash <$> characters Scenario.world1 !! "A" = Some 900
   /\ List.length (tickets Scenario.world1) = 1%nat)
  /\ (fst <$> drawWinningNumbers Scenario.lotteryConfig 10 Scenario.world1
        = Some Scenario.drawn
      /\ Character.bank <$> characters Scenario.world2 !! "A" = Some 600
      /\ ASCLottery.jackpot <$> misc_lottery Scenario.world2 = Some 500
      /\ tickets Scenario.world2 = [])
  /\ (exists ticket w,
        buyTicket Scenario.lotteryConfig Scenario.playerA "6 5 4 3 2 1" Scenario.world2
        = Some (Some ticket, w)).
Proof.
  repeat split; try (vm_compute; reflexivity).
  eexists. eexists. vm_compute. reflexivity.
Qed.

(** A ticket that matches none of the winning numbers is paid all the same. *)
Example scenario_unmatched_ticket_paid :
  checkWinningTicket (Database.stored (Scenario.ticketOf "t1" "A" [1; 2; 3; 4; 5; 6]))
                     Scenario.drawn = false
  /\ checkWinningTicket (Database.stored (Scenario.ticketOf "t2" "B" [7; 13; 21; 34; 42; 49]))
                        Scenario.drawn = true
  /\ ledger Scenario.world3' = [LedgerAdd "A" bank 233; LedgerAdd "B" bank 233].
Proof. repeat split; vm_compute; reflexivity. Qed.

(** A purchase against a stored state created under another configured
    price: with 200 configured and 100 recorded, the buyer pays 200 and the
    jackpot grows by 100. *)
Example buyTicket_two_prices :
  misc_lottery Scenario.world0 = Some Scenario.state0
  /\ ASCLottery.jackpot Scenario.state0 = 500
  /\ Character.cash <$> characters Scenario.world0 !! "A" = Some 1000
  /\ (exists ticket,
        buyTicket Scenario.raisedConfig Scenario.playerA "1 2 3 4 5 6" Scenario.world0
        = Some (Some ticket, Scenario.worldRaised))
  /\ ASCLottery.jackpot <$> misc_lottery Scenario.worldRaised = Some 600
  /\ Character.cash <$> characters Scenario.worldRaised !! "A" = Some 800
  /\ ~ (exists price, 600 = 500 + price /\ 800 = 1000 - price).
Proof.
  repeat split; try (vm_compute; reflexivity).
  - eexists. vm_compute. reflexivity.
  - intros (price & H1 & H2). lia.
Qed.

(** ** The claims at concrete inputs *)

Lemma buyTicket_duplicate_entry_witness :
  holdsTicket "A" Scenario.world1
  /\ exists w',
       buyTicket Scenario.lotteryConfig Scenario.playerA "1 2 3 4 5 6" Scenario.world1
       = Some (None, w')
       /\ tickets w' = tickets Scenario.world1
       /\ misc_lottery w' = misc_lottery Scenario.world1
       /\ characters w' = characters Scenario.world1
       /\ ledger w' = ledger Scenario.world1.
Proof.
  assert (H : holdsTicket (Player.character_id Scenario.playerA) Scenario.world1).
  { eexists. split; [left; reflexivity | reflexivity]. }
  split; [exact H|].
  exact (buyTicket_duplicate_entry Scenario.lotteryConfig Scenario.playerA
           "1 2 3 4 5 6" Scenario.world1 H).
Defined.

Lemma buyTicket_insufficient_funds_witness :
  Character.cash <$> characters Scenario.world0 !! "B" = Some 50
  /\ exists w',
       buyTicket Scenario.lotteryConfig Scenario.playerB "1 2 3 4 5 6" Scenario.world0
       = Some (None, w')
       /\ tickets w' = tickets Scenario.world0
       /\ misc_lottery w' = misc_lottery Scenario.world0
       /\ characters w' = characters Scenario.world0.
Proof.
  split; [vm_compute; reflexivity|].
  apply (buyTicket_insufficient_funds Scenario.lotteryConfig Scenario.playerB
           "1 2 3 4 5 6" Scenario.world0).
  intros c Hc. vm_compute in Hc. injection Hc as <-. vm_compute. reflexivity.
Defined.

Lemma buyTicket_create_fails_witness :
  nextCreateResult Scenario.worldNoCreate = None
  /\ exists w' c',
       buyTicket Scenario.lotteryConfig Scenario.playerA "1 2 3 4 5 6"
                 Scenario.worldNoCreate = Some (None, w')
       /\ characters w' !! "A" = Some c'
       /\ Character.cash c' = 1000 - 100
       /\ Character.bank c' = 0
       /\ misc_lottery w' = misc_lottery Scenario.worldNoCreate
       /\ tickets w' = tickets Scenario.worldNoCreate.
Proof.
  split; [reflexivity|].
  apply (buyTicket_create_fails Scenario.lotteryConfig Scenario.playerA
           "1 2 3 4 5 6" Scenario.worldNoCreate
           (map JS.of_Z [1; 2; 3; 4; 5; 6]) Scenario.alice).
  - vm_compute. reflexivity.
  - intros (d & Hin & _). destruct Hin.
  - vm_compute. reflexivity.
  - vm_compute. discriminate.
  - reflexivity.
Defined.

Lemma buyTicket_success_ticket_price_witness :
  misc_lottery Scenario.world0 = Some Scenario.state0
  /\ ASCLottery.ticketPrice Scenario.state0 = Config.ticketPrice Scenario.lotteryConfig
  /\ ASCLottery.jackpot <$> misc_lottery Scenario.world1 = Some (500 + 100)
  /\ exists c c',
       characters Scenario.world0 !! "A" = Some c
       /\ characters Scenario.world1 !! "A" = Some c'
       /\ Character.cash c' = Character.cash c - 100.
Proof.
  split; [reflexivity|]. split; [reflexivity|].
  assert (Hbuy : buyTicket Scenario.lotteryConfig Scenario.playerA "1 2 3 4 5 6"
                   Scenario.world0
                 = Some (Some (Database.stored
                                 (Scenario.ticketOf "t1" "A" [1; 2; 3; 4; 5; 6])),
                         Scenario.world1))
    by (vm_compute; reflexivity).
  exact (buyTicket_success_ticket_price Scenario.lotteryConfig Scenario.playerA
           "1 2 3 4 5 6" Scenario.world0 Scenario.world1 Scenario.state0 _
           eq_refl eq_refl Hbuy).
Defined.

Lemma drawWinningNumbers_six_distinct_witness :
  misc_lottery Scenario.world1 = Some Scenario.state1
  /\ drawWinningNumbers Scenario.lotteryConfig 10 Scenario.world1
     = Some (Scenario.drawn, Scenario.world2)
  /\ List.length Scenario.drawn = 6%nat
  /\ List.NoDup Scenario.drawn
  /\ List.Forall (fun n => 1 <= n <= 49) Scenario.drawn
  /\ ASCLottery.winningNumbers <$> misc_lottery Scenario.world2 = Some Scenario.drawn.
Proof.
  assert (H1 : misc_lottery Scenario.world1 = Some Scenario.state1)
    by (vm_compute; reflexivity).
  assert (H2 : drawWinningNumbers Scenario.lotteryConfig 10 Scenario.world1
               = Some (Scenario.drawn, Scenario.world2))
    by (vm_compute; reflexivity).
  split; [exact H1|]. split; [exact H2|].
  exact (drawWinningNumbers_six_distinct Scenario.lotteryConfig 10 Scenario.world1
           Scenario.world2 Scenario.state1 Scenario.drawn H1 H2).
Defined.

Lemma drawWinningNumbers_jackpot_witness :
  (tickets Scenario.world1 <> []
   /\ ASCLottery.jackpot <$> misc_lottery Scenario.world2 = Some 500)
  /\ (tickets Scenario.worldRollover = []
      /\ ASCLottery.jackpot <$> misc_lottery Scenario.worldRollover' = Some 600).
Proof.
  split.
  - assert (Htk : tickets Scenario.world1 <> []) by (vm_compute; discriminate).
    split; [exact Htk|].
    apply (drawWinningNumbers_jackpot Scenario.lotteryConfig 10 Scenario.world1
             Scenario.world2 Scenario.state1 Scenario.drawn);
      [vm_compute; reflexivity | vm_compute; reflexivity | exact Htk].
  - split; [reflexivity|].
    apply (drawWinningNumbers_jackpot Scenario.lotteryConfig 10 Scenario.worldRollover
             Scenario.worldRollover' Scenario.state1 Scenario.drawn);
      [reflexivity | vm_compute; reflexivity | reflexivity].
Defined.

Lemma drawWinningNumbers_clears_tickets_witness :
  List.length (tickets Scenario.world3) = 3%nat /\ tickets Scenario.world3' = [].
Proof.
  split; [reflexivity|].
  apply (drawWinningNumbers_clears_tickets Scenario.lotteryConfig 10 Scenario.world3
           Scenario.world3' Scenario.state700 Scenario.drawn);
    [reflexivity | vm_compute; reflexivity].
Defined.

Lemma drawWinningNumbers_payout_witness :
  ASCLottery.jackpot Scenario.state700 / 3 = 233
  /\ ledger Scenario.world3'
     = (ledger Scenario.world3
        ++ [LedgerAdd "A" bank 233; LedgerAdd "B" bank 233])%list
  /\ (exists c', characters Scenario.world3' !! "B" = Some c'
                 /\ Character.bank c' = 10 + 233)
  /\ ASCLottery.jackpot <$> misc_lottery Scenario.world3' = Some 500.
Proof.
  split; [reflexivity|].
  destruct (drawWinningNumbers_payout Scenario.lotteryConfig 10 Scenario.world3
              Scenario.world3' Scenario.state700 Scenario.drawn)
    as (Hl & _ & _ & Hone & Hj);
    [reflexivity | vm_compute; discriminate | vm_compute; reflexivity |].
  split; [exact Hl|]. split; [|exact Hj].
  apply (Hone "B" Scenario.bob); vm_compute; reflexivity.
Defined.

Lemma scheduleDraw_next_fire_witness :
  JSDate.getFullYear 0 Scenario.evening = 2024
  /\ JSDate.TimeWithinDay (JSDate.LocalTime 0 Scenario.evening) = JSDate.MakeTime 19 0 0 0
  /\ nextDrawAfter 0 Scenario.evening = 1730570400000.
Proof.
  assert (Hy : JSDate.getFullYear 0 Scenario.evening = 2024) by (vm_compute; reflexivity).
  split; [exact Hy|]. split; [vm_compute; reflexivity|].
  destruct (scheduleDraw_next_fire 0 Scenario.evening) as (_ & H19 & _).
  - rewrite Hy. lia.
  - rewrite H19 by (vm_compute; reflexivity). vm_compute. reflexivity.
Defined.

(** ** Where the claims as worded fail *)

(** C1 as claimed fails with no ticket in the store: the draw leaves the
    jackpot of 600 where the configured initial jackpot is 500. *)
Lemma drawWinningNumbers_jackpot_kept_without_tickets :
  misc_lottery Scenario.worldRollover = Some Scenario.state1
  /\ tickets Scenario.worldRollover = []
  /\ drawWinningNumbers Scenario.lotteryConfig 10 Scenario.worldRollover
     = Some (Scenario.drawn, Scenario.worldRollover')
  /\ ASCLottery.jackpot <$> misc_lottery Scenario.worldRollover' = Some 600
  /\ Config.initialJackpot Scenario.lotteryConfig = 500
  /\ ~ (forall cfg fuel w st numbers w',
          misc_lottery w = Some st ->
          drawWinningNumbers cfg fuel w = Some (numbers, w') ->
          ASCLottery.jackpot <$> misc_lottery w' = Some (Config.initialJackpot cfg)).
Proof.
  assert (Hrun : drawWinningNumbers Scenario.lotteryConfig 10 Scenario.worldRollover
                 = Some (Scenario.drawn, Scenario.worldRollover'))
    by (vm_compute; reflexivity).
  assert (Hj : ASCLottery.jackpot <$> misc_lottery Scenario.worldRollover' = Some 600)
    by (vm_compute; reflexivity).
  split; [vm_compute; reflexivity|]. split; [vm_compute; reflexivity|].
  split; [exact Hrun|]. split; [exact Hj|]. split; [vm_compute; reflexivity|].
  intros Hclaim.
  specialize (Hclaim Scenario.lotteryConfig 10%nat Scenario.worldRollover
                Scenario.state1 Scenario.drawn Scenario.worldRollover' eq_refl Hrun).
  rewrite Hj in Hclaim. discriminate Hclaim.
Qed.

(** C5 as claimed fails with no lottery state in the store: the draw
    returns at once and the ticket stays. *)
Lemma drawWinningNumbers_keeps_tickets_without_state :
  misc_lottery Scenario.worldNoState = None
  /\ drawWinningNumbers Scenario.lotteryConfig 10 Scenario.worldNoState
     = Some ([], Scenario.worldNoState)
  /\ List.length (tickets Scenario.worldNoState) = 1%nat
  /\ ~ (forall cfg fuel w numbers w',
          drawWinningNumbers cfg fuel w = Some (numbers, w') -> tickets w' = []).
Proof.
  assert (Hrun : drawWinningNumbers Scenario.lotteryConfig 10 Scenario.worldNoState
                 = Some ([], Scenario.worldNoState))
    by (apply drawWinningNumbers_no_state; reflexivity).
  split; [vm_compute; reflexivity|]. split; [exact Hrun|].
  split; [vm_compute; reflexivity|].
  intros Hclaim. specialize (Hclaim _ _ _ _ _ Hrun). discriminate Hclaim.
Qed.

(** * Further properties *)

(** ** Ticket validator *)

(** X2: An accepted ticket holds exactly six numbers, each a positive finite
    binary64 value that is neither below 1 nor above 49: never NaN, an
    infinity, a zero or a negative number. *)
Theorem parseTicketNumbers_result_positive_finite (s : string) (nums : list JS.number) :
  parseTicketNumbers s = Some nums ->
  List.length nums = 6%nat
  /\ List.Forall (fun n => (exists m e, n = S754_finite false m e)
                           /\ JS.ltb n (JS.of_Z 1) = false
                           /\ JS.gtb n (JS.of_Z 49) = false) nums.
Proof.
  unfold parseTicketNumbers.
  set (numbers := map JS.Number (JS.split " " s)).
  destruct (Nat.eqb_spec (List.length numbers) 6) as [Hlen|]; [|discriminate].
  cbn [negb orb].
  destruct (existsb JS.isNaN numbers) eqn:Hnan; [discriminate|]. cbn [orb].
  destruct (existsb (fun n => JS.ltb n (JS.of_Z 1) || JS.gtb n (JS.of_Z 49)) numbers)
    eqn:Hrng; [discriminate|].
  intros Hsome. injection Hsome as Hsome. subst nums. split; [exact Hlen|].
  apply List.Forall_forall. intros n Hn.
  assert (Hn1 : JS.isNaN n = false).
  { destruct (JS.isNaN n) eqn:E; [|reflexivity].
    assert (existsb JS.isNaN numbers = true) by (apply existsb_exists; eauto).
    congruence. }
  assert (Hn2 : JS.ltb n (JS.of_Z 1) || JS.gtb n (JS.of_Z 49) = false).
  { destruct (_ || _) eqn:E; [|reflexivity].
    assert (existsb (fun n => JS.ltb n (JS.of_Z 1) || JS.gtb n (JS.of_Z 49)) numbers = true)
      by (apply existsb_exists; eauto).
    congruence. }
  apply orb_false_iff in Hn2 as [Hlt Hgt].
  assert (H1 : JS.of_Z 1 = S754_finite false 4503599627370496 (-52))
    by (vm_compute; reflexivity).
  assert (H49 : JS.of_Z 49 = S754_finite false 6896136929411072 (-47))
    by (vm_compute; reflexivity).
  split; [|split; assumption].
  rewrite H1 in Hlt. rewrite H49 in Hgt.
  unfold JS.ltb, JS.gtb, SFltb, SFcompare in Hlt, Hgt.
  destruct n as [sg|sg| |sg m e]; try discriminate;
    destruct sg; try discriminate; eauto.
Qed.

(** X1: Six integers of [1,49], written in decimal and joined by single
    spaces, split back into their six numerals and are accepted and
    returned as they are, in their order, repetitions included. *)
Theorem parseTicketNumbers_accepts_integers (numbers : list Z) :
  List.length numbers = 6%nat ->
  List.Forall (fun n => 1 <= n <= 49) numbers ->
  JS.split " " (JS.join " " (map Spec.numeral numbers)) = map Spec.numeral numbers
  /\ parseTicketNumbers (JS.join " " (map Spec.numeral numbers))
     = Some (map JS.of_Z numbers).
Proof.
  intros Hlen Hall. split.
  - apply split_join_numerals; [|exact Hall]. intros ->. discriminate Hlen.
  - now apply parse_joined_numerals.
Qed.

Lemma parse_rejects (s : string) :
  List.length (JS.split " " s) <> 6%nat
  \/ (exists t, In t (JS.split " " s)
                /\ (JS.isNaN (JS.Number t) = true
                    \/ JS.ltb (JS.Number t) (JS.of_Z 1) = true
                    \/ JS.gtb (JS.Number t) (JS.of_Z 49) = true)) ->
  parseTicketNumbers s = None.
Proof.
  intros H. unfold parseTicketNumbers. rewrite length_map, !existsb_map.
  destruct (Nat.eqb_spec (List.length (JS.split " " s)) 6) as [Hlen|];
    [|reflexivity].
  destruct H as [H | (t & Hin & Ht)]; [contradiction|]. cbn [negb orb].
  destruct (existsb (fun x => JS.isNaN (JS.Number x)) (JS.split " " s)) eqn:Hnan;
    [reflexivity|]. cbn [orb].
  destruct Ht as [Ht | Ht].
  - assert (existsb (fun x => JS.isNaN (JS.Number x)) (JS.split " " s) = true)
      by (apply existsb_exists; eauto).
    congruence.
  - assert (Hex : existsb (fun x => JS.ltb (JS.Number x) (JS.of_Z 1)
                                    || JS.gtb (JS.Number x) (JS.of_Z 49))
                          (JS.split " " s) = true).
    { apply existsb_exists. exists t. split; [exact Hin|]. now apply orb_true_iff. }
    now rewrite Hex.
Qed.

(** ** Purchase flow *)

(** Runs [buyTicket] symbolically: one goal per path through the code. *)
Ltac buy_paths cfg player numbers w :=
  unfold buyTicket;
  let nums := fresh "nums" in
  let Hparse := fresh "Hparse" in
  destruct (parseTicketNumbers numbers) as [nums|] eqn:Hparse;
  [ run;
    let existing := fresh "existing" in
    let Hfind := fresh "Hfind" in
    destruct (List.find _ (tickets w)) as [existing|] eqn:Hfind; cbn;
    [ | let c := fresh "c" in
        let Hc := fresh "Hc" in
        destruct (characters w !! Player.character_id player) as [c|] eqn:Hc; cbn;
        [ let Hcash := fresh "Hcash" in
          destruct (Z.leb_spec (Config.ticketPrice cfg) (Character.cash c)) as [Hcash|Hcash];
          cbn;
          [ let tid := fresh "tid" in
            let rest := fresh "rest" in
            let Hcreate := fresh "Hcreate" in
            destruct (createOutcomes w) as [|[tid|] rest] eqn:Hcreate; cbn;
            [ | let a := fresh "a" in
                let st := fresh "st" in
                let Hst := fresh "Hst" in
                destruct tid as [|a tid]; cbn;
                [ | destruct (misc_lottery w) as [st|] eqn:Hst; cbn ]
              | ]
          | ]
        | ] ]
  | ].

Lemma find_app_none {A} (f : A -> bool) (l l' : list A) :
  List.find f l = None -> List.find f (l ++ l') = List.find f l'.
Proof.
  induction l as [|x l IH]; cbn; [reflexivity|].
  destruct (f x); [discriminate | exact IH].
Qed.

Lemma find_owner_none (id : string) (w : World) :
  findTicket id w = None -> ~ In id (owners w).
Proof.
  intros Hnone Hin. unfold owners in Hin. apply in_map_iff in Hin as (d & Hd & Hin).
  apply (findTicket_holds id w); [|exact Hnone]. exists d. split; assumption.
Qed.

Section PurchaseFrame.

Variable lotteryConfig : Config.t.

(** X3: Malformed numbers end the purchase before anything is touched: when
    the text does not split into six tokens at its single spaces, or a
    token is not numeric or lies below 1 or above 49, the call returns null
    and the world is as it was, without any store, currency or notification
    call, whoever the player and whatever the balance. *)
Theorem buyTicket_invalid_numbers (player : Player.t) (numbers : string) (w : World) :
  List.length (JS.split " " numbers) <> 6%nat
  \/ (exists t, In t (JS.split " " numbers)
                /\ (JS.isNaN (JS.Number t) = true
                    \/ JS.ltb (JS.Number t) (JS.of_Z 1) = true
                    \/ JS.gtb (JS.Number t) (JS.of_Z 49) = true)) ->
  buyTicket lotteryConfig player numbers w = Some (None, w).
Proof. intros H. unfold buyTicket. now rewrite (parse_rejects numbers H). Qed.

(** X4: A purchase goes through whenever the numbers are valid, the buyer
    holds no ticket and at least the ticket price in cash, and the store
    returns a non-empty id: the ticket returned carries that id, the parsed
    numbers and the buyer's identity, it is appended to the collection, and
    the buyer is debited.  This holds without a lottery state too, in which
    case none is created and the price is added to no jackpot. *)
Theorem buyTicket_succeeds (player : Player.t) (numbers : string) (w : World)
    (ticketNumbers : list JS.number) (c : Character.t) (id : string) :
  parseTicketNumbers numbers = Some ticketNumbers ->
  ~ holdsTicket (Player.character_id player) w ->
  characters w !! Player.character_id player = Some c ->
  Config.ticketPrice lotteryConfig <= Character.cash c ->
  nextCreateResult w = Some id ->
  id <> EmptyString ->
  let document :=
    {| LotteryTicket._id := None;
       LotteryTicket.ticketNumbers := ticketNumbers;
       LotteryTicket.playerUUID := Player.character_id player |} in
  exists w',
    buyTicket lotteryConfig player numbers w
    = Some (Some (LotteryTicket.set_id id document), w')
    /\ tickets w' = (tickets w ++ [(id, document)])%list
    /\ (Character.cash <$> characters w' !! Player.character_id player
        = Some (Character.cash c - Config.ticketPrice lotteryConfig))
    /\ (misc_lottery w = None -> misc_lottery w' = None).
Proof.
  intros Hp Hnew Hchar Hrich Hnext Hid document.
  unfold nextCreateResult in Hnext.
  buy_paths lotteryConfig player numbers w;
    try discriminate;
    try (exfalso; apply Hnew; apply find_some in Hfind as [Hin Hd];
         exists existing; split; [exact Hin | now apply String.eqb_eq]);
    try (injection Hchar as <-; lia);
    try congruence;
    cbn in Hnext; try discriminate Hnext;
    injection Hnext as <-; try (exfalso; apply Hid; reflexivity);
    injection Hp as <-; injection Hchar as <-;
    (eexists; split; [reflexivity|]); cbn; rewrite ?Hst; cbn;
    rewrite lookup_insert_eq; repeat split; discriminate.
Qed.

(** X5: A ticket just bought is the one [getCurrentTicket] finds for the
    buyer, and the lookup changes nothing. *)
Theorem buyTicket_then_getCurrentTicket (player : Player.t) (numbers : string)
    (w w' : World) (ticket : LotteryTicket.t) :
  buyTicket lotteryConfig player numbers w = Some (Some ticket, w') ->
  getCurrentTicket player w' = Some (Some ticket, w')
  /\ LotteryTicket.playerUUID ticket = Player.character_id player
  /\ parseTicketNumbers numbers = Some (LotteryTicket.ticketNumbers ticket)
  /\ List.length (tickets w') = S (List.length (tickets w)).
Proof.
  buy_paths lotteryConfig player numbers w; intros Hbuy; try discriminate;
    injection Hbuy as <- <-; unfold getCurrentTicket, Database.get_ticket; cbn;
    rewrite ?Hst; cbn;
    (rewrite (find_app_none _ _ _ Hfind); cbn; rewrite String.eqb_refl; cbn;
     repeat split; rewrite length_app; cbn; lia).
Qed.

(** X6: Purchases keep the rule of one ticket per identity: if no identity
    holds two tickets before the call, none does after it, whatever the
    outcome. *)
Theorem buyTicket_keeps_oneTicketEach (player : Player.t) (numbers : string)
    (w w' : World) (r : option LotteryTicket.t) :
  oneTicketEach w ->
  buyTicket lotteryConfig player numbers w = Some (r, w') ->
  oneTicketEach w'.
Proof.
  intros Hone.
  buy_paths lotteryConfig player numbers w; intros Hbuy;
    injection Hbuy as <- <-; unfold oneTicketEach, owners in *; cbn;
    rewrite ?Hst; cbn; try exact Hone;
    (rewrite map_app; cbn; apply NoDup_ListNoDup, NoDup_app;
     apply NoDup_ListNoDup in Hone;
     split; [exact Hone|]; split; [|apply NoDup_singleton];
     intros x Hx Hx'; apply list_elem_of_In in Hx, Hx';
     destruct Hx' as [<-|[]];
     now apply (find_owner_none (Player.character_id player) w Hfind)).
Qed.

(** X7: A purchase never creates or removes the lottery state, and changes
    nothing of it but the jackpot, which either stays or, when a ticket is
    returned, grows by the ticket price the state records. *)
Theorem buyTicket_lottery_state_frame (player : Player.t) (numbers : string)
    (w w' : World) (r : option LotteryTicket.t) :
  buyTicket lotteryConfig player numbers w = Some (r, w') ->
  match misc_lottery w, misc_lottery w' with
  | Some st, Some st' =>
      sameButJackpot st st'
      /\ (ASCLottery.jackpot st' = ASCLottery.jackpot st
          \/ (r <> None
              /\ ASCLottery.jackpot st' = ASCLottery.jackpot st + ASCLottery.ticketPrice st))
  | None, None => True
  | _, _ => False
  end.
Proof.
  buy_paths lotteryConfig player numbers w; intros Hbuy;
    injection Hbuy as <- <-; cbn; rewrite ?Hst; cbn;
    try (destruct (misc_lottery w); [repeat split; now left | exact I]).
  repeat split. right. split; [discriminate | reflexivity].
Qed.

(** X8: A purchase touches no character but the buyer, and of the buyer only
    the cash, which stays or goes down by the configured ticket price; it
    adds and removes no character. *)
Theorem buyTicket_characters_frame (player : Player.t) (numbers : string)
    (w w' : World) (r : option LotteryTicket.t) (id : string) :
  buyTicket lotteryConfig player numbers w = Some (r, w') ->
  match characters w !! id, characters w' !! id with
  | Some c, Some c' =>
      Character.name c' = Character.name c
      /\ Character.bank c' = Character.bank c
      /\ (Character.cash c' = Character.cash c
          \/ (id = Player.character_id player
              /\ Character.cash c' = Character.cash c - Config.ticketPrice lotteryConfig))
  | None, None => True
  | _, _ => False
  end.
Proof.
  buy_paths lotteryConfig player numbers w; intros Hbuy;
    injection Hbuy as <- <-; cbn; rewrite ?Hst; cbn;
    try (destruct (characters w !! id); [repeat split; now left | exact I]);
    (rewrite lookup_insert;
     destruct (decide (Player.character_id player = id)) as [<-|Hne];
     [ rewrite Hc; cbn; repeat split; right; split; reflexivity
     | destruct (characters w !! id); [repeat split; now left | exact I] ]).
Qed.

End PurchaseFrame.

(** ** Winning-ticket predicate *)

Lemma lotteryNumbers_In (n : Z) : 1 <= n <= 49 <-> In n lotteryNumbers.
Proof.
  unfold lotteryNumbers. rewrite in_map_iff. split.
  - intros H. exists (Z.to_nat n). split; [lia | apply in_seq; lia].
  - intros (i & <- & Hi). apply in_seq in Hi. lia.
Qed.

Lemma of_Z_eqb (a b : Z) :
  1 <= a <= 49 -> 1 <= b <= 49 -> SFeqb (JS.of_Z a) (JS.of_Z b) = (a =? b).
Proof.
  intros Ha Hb.
  assert (Htable : forallb (fun a => forallb (fun b =>
                      Bool.eqb (SFeqb (JS.of_Z a) (JS.of_Z b)) (a =? b))
                      lotteryNumbers) lotteryNumbers = true)
    by (vm_compute; reflexivity).
  rewrite forallb_forall in Htable.
  specialize (Htable a (proj1 (lotteryNumbers_In a) Ha)).
  rewrite forallb_forall in Htable.
  specialize (Htable b (proj1 (lotteryNumbers_In b) Hb)).
  now apply Bool.eqb_prop in Htable.
Qed.

Lemma includes_In (winningNumbers : list Z) (n : Z) :
  List.Forall (fun k => 1 <= k <= 49) winningNumbers ->
  1 <= n <= 49 ->
  includes winningNumbers (JS.of_Z n) = true <-> In n winningNumbers.
Proof.
  intros Hws Hn. unfold includes. rewrite existsb_exists.
  rewrite List.Forall_forall in Hws. split.
  - intros (k & Hk & Heq). rewrite of_Z_eqb in Heq by auto.
    apply Z.eqb_eq in Heq. now subst.
  - intros Hin. exists n. split; [exact Hin|].
    rewrite of_Z_eqb by auto. apply Z.eqb_refl.
Qed.

(** X9: For integers of [1,49], a ticket wins exactly when each of its numbers
    occurs among the winning numbers: order and repetition play no part, so
    a ticket repeating one drawn number wins.  When ticket and draw have as
    many numbers, all distinct, the ticket wins exactly when the two hold
    the same numbers. *)
Theorem checkWinningTicket_subset (ticket : LotteryTicket.t)
    (numbers winningNumbers : list Z) :
  LotteryTicket.ticketNumbers ticket = map JS.of_Z numbers ->
  List.Forall (fun n => 1 <= n <= 49) numbers ->
  List.Forall (fun n => 1 <= n <= 49) winningNumbers ->
  (checkWinningTicket ticket winningNumbers = true
   <-> forall n, In n numbers -> In n winningNumbers)
  /\ (List.NoDup numbers ->
      List.length winningNumbers = List.length numbers ->
      (checkWinningTicket ticket winningNumbers = true
       <-> forall n, In n numbers <-> In n winningNumbers)).
Proof.
  intros Hnums Hns Hws.
  assert (Hsub : checkWinningTicket ticket winningNumbers = true
                 <-> forall n, In n numbers -> In n winningNumbers).
  { unfold checkWinningTicket. rewrite Hnums, forallb_forall.
    rewrite List.Forall_forall in Hns. split.
    - intros H n Hn. apply includes_In; auto. apply H. now apply in_map.
    - intros H x Hx. apply in_map_iff in Hx as (n & <- & Hn).
      apply includes_In; auto. }
  split; [exact Hsub|]. intros Hnd Hlen. rewrite Hsub. split.
  - intros Hincl n. split; [apply Hincl|].
    apply (NoDup_length_incl Hnd); [lia | exact Hincl].
  - intros H n. apply H.
Qed.

(** ** Rejection loop *)

Lemma inRange_NoDup_length (min max : Z) (l : list Z) :
  min <= max ->
  List.NoDup l ->
  List.Forall (inRange min max) l ->
  Z.of_nat (List.length l) <= max - min + 1.
Proof.
  intros Hmm Hnd Hall.
  set (all := map (fun i => min + Z.of_nat i) (seq 0 (Z.to_nat (max - min + 1)))).
  assert (Hincl : incl l all).
  { intros x Hx. rewrite List.Forall_forall in Hall. specialize (Hall x Hx).
    unfold inRange in Hall. unfold all. apply in_map_iff.
    exists (Z.to_nat (x - min)). split; [lia | apply in_seq; lia]. }
  pose proof (NoDup_incl_length Hnd Hincl) as Hle.
  unfold all in Hle. rewrite length_map, length_seq in Hle. lia.
Qed.

Lemma generateRandomNumbers_loop_stuck (count min max : Z) :
  min <= max -> max - min + 1 < count ->
  forall (fuel : nat) (numbers : list Z) (w : World),
    List.NoDup numbers ->
    List.Forall (inRange min max) numbers ->
    generateRandomNumbers_loop fuel count min max numbers w = None.
Proof.
  intros Hmm Hbig. induction fuel as [|fuel IH]; intros numbers w Hnd Hrg;
    pose proof (inRange_NoDup_length min max numbers Hmm Hnd Hrg) as Hlen;
    cbn [generateRandomNumbers_loop];
    destruct (Z.ltb_spec (Z.of_nat (List.length numbers)) count); try lia.
  - reflexivity.
  - unfold bind, Math.random.
    set (r := random w (randomCalls w) mod 2 ^ 53).
    assert (Hr : 0 <= r < 2 ^ 53) by (apply Z.mod_pos_bound; lia).
    pose proof (floor_scaled_bounds r (max - min + 1) Hr ltac:(lia)).
    apply IH; [now apply Set_add_NoDup|].
    apply Set_add_Forall; [unfold inRange; lia | exact Hrg].
Qed.

(** X10: Asked for more distinct numbers than the range holds,
    [generateRandomNumbers] never returns: the loop runs out of any fuel. *)
Theorem generateRandomNumbers_never_returns (count min max : Z) (fuel : nat) (w : World) :
  min <= max ->
  max - min + 1 < count ->
  generateRandomNumbers fuel count min max w = None.
Proof.
  intros Hmm Hbig. apply generateRandomNumbers_loop_stuck; try assumption; constructor.
Qed.

Lemma set_randomCalls_same (w : World) : set_randomCalls (randomCalls w) w = w.
Proof. now destruct w. Qed.

(** The loop moves the random source forward by one position per turn, and
    a turn adds at most one number. *)
Lemma generateRandomNumbers_loop_calls (count min max : Z) (fuel : nat) :
  forall (numbers : list Z) (w : World) (result : list Z) (w' : World),
    generateRandomNumbers_loop fuel count min max numbers w = Some (result, w') ->
    exists k,
      w' = set_randomCalls (randomCalls w + k) w
      /\ (List.length result <= List.length numbers + k)%nat.
Proof.
  induction fuel as [|fuel IH]; intros numbers w result w' Hrun;
    cbn [generateRandomNumbers_loop] in Hrun;
    destruct (Z.of_nat (List.length numbers) <? count); try discriminate;
    try (injection Hrun as <- <-; exists 0%nat;
         rewrite Nat.add_0_r, set_randomCalls_same; split; [reflexivity | lia]).
  unfold bind, Math.random in Hrun.
  match type of Hrun with context [Set_add ?x numbers] =>
    pose proof (Set_add_length x numbers) as Hadd end.
  apply IH in Hrun as (k & -> & Hlen). exists (S k). cbn.
  rewrite Nat.add_succ_r. split; [reflexivity | lia].
Qed.

(** X11: A call of [generateRandomNumbers] that returns gives exactly [count]
    pairwise distinct integers of [min, max].  It touches nothing but the
    random source, which it has asked at least [count] times. *)
Theorem generateRandomNumbers_unique_in_range (fuel : nat) (count min max : Z)
    (w w' : World) (result : list Z) :
  min <= max ->
  0 <= count ->
  generateRandomNumbers fuel count min max w = Some (result, w') ->
  Z.of_nat (List.length result) = count
  /\ List.NoDup result
  /\ List.Forall (fun n => min <= n <= max) result
  /\ exists k,
       w' = set_randomCalls (randomCalls w + k) w
       /\ count <= Z.of_nat k.
Proof.
  intros Hmm Hc Hrun.
  destruct (generateRandomNumbers_loop_calls _ _ _ _ _ _ _ _ Hrun) as (k & Hw & Hk).
  apply generateRandomNumbers_loop_spec in Hrun as (Hnd & Hrg & Hlen & _);
    [|exact Hmm|constructor|constructor|cbn; lia].
  repeat split; try assumption.
  exists k. split; [exact Hw | cbn in Hk; lia].
Qed.

(** ** What a draw announces *)

Lemma resolved_In (chars : gmap string Character.t) (l : list LotteryTicket.t)
    (t : LotteryTicket.t) :
  In t (resolved chars l) -> is_Some (chars !! LotteryTicket.playerUUID t).
Proof.
  unfold resolved. rewrite filter_In. intros [_ H].
  now apply bool_decide_eq_true_1 in H.
Qed.

Lemma last_Some_In {A} (x : A) (r : list A) :
  exists y, List.last (map Some (x :: r)) None = Some y /\ In y (x :: r).
Proof.
  revert x. induction r as [|z r IH]; intros x.
  - exists x. split; [reflexivity | now left].
  - destruct (IH z) as (y & Hy & Hin). exists y. split; [exact Hy | now right].
Qed.

Lemma announcedName_initial (chars : gmap string Character.t)
    (l : list LotteryTicket.t) (nm nm' : string) :
  resolved chars l <> [] ->
  announcedName chars l nm = announcedName chars l nm'.
Proof.
  intros Hne. unfold announcedName.
  destruct (resolved chars l) as [|x r] eqn:E; [congruence|].
  destruct (last_Some_In x r) as (y & -> & Hy).
  rewrite <- E in Hy. apply resolved_In in Hy as [c ->]. reflexivity.
Qed.

Lemma announcedName_cons_known (chars : gmap string Character.t)
    (t : LotteryTicket.t) (l : list LotteryTicket.t) (nm : string) (c : Character.t) :
  chars !! LotteryTicket.playerUUID t = Some c ->
  announcedName chars (t :: l) nm = announcedName chars l (Character.name c).
Proof.
  intros Hc.
  assert (Hcons : resolved chars (t :: l) = t :: resolved chars l).
  { unfold resolved. cbn [List.filter]. now rewrite bool_decide_eq_true_2 by eauto. }
  destruct (resolved chars l) as [|x r] eqn:E.
  - unfold announcedName. rewrite Hcons, E. cbn. now rewrite Hc.
  - rewrite (announcedName_initial chars l (Character.name c) nm) by congruence.
    unfold announcedName. rewrite Hcons, E. reflexivity.
Qed.

Lemma announcedName_cons_unknown (chars : gmap string Character.t)
    (t : LotteryTicket.t) (l : list LotteryTicket.t) (nm : string) :
  chars !! LotteryTicket.playerUUID t = None ->
  announcedName chars (t :: l) nm = announcedName chars l nm.
Proof.
  intros Hc. unfold announcedName, resolved. cbn [List.filter].
  rewrite bool_decide_eq_false_2; [reflexivity|]. rewrite Hc. now intros [? ?].
Qed.

Lemma announcedName_ext (chars chars' : gmap string Character.t)
    (l : list LotteryTicket.t) (nm : string) :
  (forall id, Character.name <$> chars' !! id = Character.name <$> chars !! id) ->
  announcedName chars' l nm = announcedName chars l nm.
Proof.
  intros Hnames.
  assert (Hres : resolved chars' l = resolved chars l).
  { unfold resolved. apply filter_ext. intros t. apply bool_decide_ext.
    specialize (Hnames (LotteryTicket.playerUUID t)).
    destruct (chars' !! _), (chars !! _); try discriminate; split; eauto;
      intros [? ?]; discriminate. }
  unfold announcedName. rewrite Hres.
  destruct (List.last _ None) as [t|]; [|reflexivity].
  specialize (Hnames (LotteryTicket.playerUUID t)).
  destruct (chars' !! _), (chars !! _); try discriminate; [|reflexivity].
  now injection Hnames.
Qed.

Lemma payWinners_announces (share : Z) (l : list LotteryTicket.t) :
  forall (winnerName : string) (w : World),
  exists w',
    payWinners l share winnerName w
    = Some (announcedName (characters w) l winnerName, w')
    /\ timers w' = timers w
    /\ clock w' = clock w
    /\ notifications w' = notifications w
    /\ misc_lottery w' = misc_lottery w
    /\ tickets w' = tickets w.
Proof.
  induction l as [|t l IH]; intros winnerName w.
  - exists w. repeat split.
  - cbn [payWinners]. run.
    destruct (characters w !! LotteryTicket.playerUUID t) as [c|] eqn:Hc; cbn.
    + rewrite Hc.
      match goal with |- context [payWinners l share ?n ?w1] =>
        destruct (IH n w1) as (w' & Hrun & Ht & Hk & Hn & Hm & Htk) end.
      exists w'. rewrite Hrun. cbn in *.
      repeat split; try assumption. f_equal. f_equal.
      rewrite (announcedName_cons_known _ _ _ _ _ Hc).
      apply announcedName_ext. intros id. rewrite lookup_insert.
      case_decide as Hid; [subst id; now rewrite Hc | reflexivity].
    + destruct (IH winnerName w) as (w' & Hrun & Ht & Hk & Hn & Hm & Htk).
      exists w'. rewrite Hrun, (announcedName_cons_unknown _ _ _ _ Hc).
      repeat split; assumption.
Qed.

Lemma delete_all_frame (ds : list (string * LotteryTicket.t)) :
  forall w : World,
    tickets w = ds ->
    exists w',
      forEach (map Database.stored ds)
              (fun ticket => Database.deleteDocument (LotteryTicket._id ticket)) w
      = Some (tt, w')
      /\ timers w' = timers w
      /\ clock w' = clock w
      /\ notifications w' = notifications w
      /\ misc_lottery w' = misc_lottery w
      /\ characters w' = characters w
      /\ ledger w' = ledger w
      /\ tickets w' = [].
Proof.
  induction ds as [|d ds IH]; intros w Hw.
  - exists w. cbn. repeat split. exact Hw.
  - cbn [map forEach]. run. cbn. rewrite Hw. cbn. rewrite String.eqb_refl.
    destruct (IH (set_tickets ds w) eq_refl)
      as (w' & Hrun & Ht & Hk & Hn & Hm & Hc & Hl & Htk).
    exists w'. rewrite Hrun. repeat split; assumption.
Qed.

Section DrawReport.

Variable lotteryConfig : Config.t.

Lemma drawWinningNumbers_report (fuel : nat) (w w' : World) (st : ASCLottery.t)
    (numbers : list Z) :
  misc_lottery w = Some st ->
  drawWinningNumbers lotteryConfig fuel w = Some (numbers, w') ->
  notifications w'
  = (notifications w
     ++ [DrawResult numbers
           (announcedName (characters w) (map Database.stored (tickets w))
                          "No Winner today.")])%list
  /\ timers w' = timers w
  /\ clock w' = clock w.
Proof.
  intros Hst Hrun.
  unfold drawWinningNumbers in Hrun. unfold bind at 1 in Hrun.
  unfold Database.get_lottery at 1 in Hrun. rewrite Hst in Hrun.
  unfold bind at 1 in Hrun.
  destruct (generateRandomNumbers fuel 6 numberRange.min numberRange.max w)
    as [[nums w1]|] eqn:Hgen; [|discriminate].
  apply generateRandomNumbers_spec in Hgen as (_ & _ & _ & n & ->);
    [|unfold numberRange.min, numberRange.max; lia | lia].
  run. cbn in Hrun. rewrite Hst in Hrun. cbn in Hrun.
  destruct (tickets w) as [|d ds] eqn:Htk.
  - match type of Hrun with context [if ?b then _ else _] =>
      replace b with false in Hrun by reflexivity end.
    cbn in Hrun. rewrite ?Htk in Hrun. cbn in Hrun.
    injection Hrun as <- <-. cbn. repeat split.
  - cbn [map List.length] in Hrun.
    match type of Hrun with context [if ?b then _ else _] =>
      replace b with true in Hrun by (symmetry; apply Z.ltb_lt; lia) end.
    unfold bind in Hrun.
    match type of Hrun with context [payWinners ?l ?s ?nm ?ww] =>
      destruct (payWinners_announces s l nm ww)
        as (w2 & Hpay & Ht2 & Hk2 & Hn2 & Hm2 & Htk2);
      rewrite Hpay in Hrun
    end.
    cbn [misc_lottery tickets notifications clock ledger characters timers
         set_misc_lottery set_randomCalls] in Ht2, Hk2, Hn2, Hm2, Htk2, Hrun.
    rewrite Hm2 in Hrun.
    cbn [misc_lottery tickets notifications clock ledger characters timers
         set_misc_lottery set_notifications] in Hrun.
    rewrite Htk2, Htk in Hrun.
    match type of Hrun with context [forEach (map Database.stored ?l) ?f ?ww] =>
      destruct (delete_all_frame l ww)
        as (w3 & Hdel & Ht3 & Hk3 & Hn3 & _);
        [cbn; congruence|];
      replace (forEach (map Database.stored l) f ww) with (Some (tt, w3)) in Hrun
        by (symmetry; exact Hdel)
    end.
    cbn in Hrun. injection Hrun as <- <-.
    cbn [misc_lottery tickets notifications clock ledger characters timers
         set_misc_lottery set_notifications] in Ht3, Hk3, Hn3.
    rewrite Ht3, Hk3, Hn3, Ht2, Hk2, Hn2. repeat split.
Qed.

(** X12: A draw with a lottery state in the store broadcasts exactly one
    notification: the numbers drawn, with the name of the holder of the
    last ticket whose holder is a known character, or "No Winner today."
    when there is no such ticket.  It stamps the state with the time of the
    draw and keeps its id, type and ticket price. *)
Theorem drawWinningNumbers_announcement (fuel : nat) (w w' : World)
    (st : ASCLottery.t) (numbers : list Z) :
  misc_lottery w = Some st ->
  drawWinningNumbers lotteryConfig fuel w = Some (numbers, w') ->
  notifications w'
  = (notifications w
     ++ [DrawResult numbers
           (announcedName (characters w) (map Database.stored (tickets w))
                          "No Winner today.")])%list
  /\ exists st',
       misc_lottery w' = Some st'
       /\ ASCLottery.lastDrawDate st' = clock w
       /\ ASCLottery._id st' = ASCLottery._id st
       /\ ASCLottery.type st' = ASCLottery.type st
       /\ ASCLottery.ticketPrice st' = ASCLottery.ticketPrice st.
Proof.
  intros Hst Hrun.
  destruct (drawWinningNumbers_report fuel w w' st numbers Hst Hrun) as (Hn & _).
  destruct (drawWinningNumbers_spec lotteryConfig fuel w w' st numbers Hst Hrun)
    as (_ & _ & _ & Hm & _).
  split; [exact Hn|]. eexists. split; [exact Hm|].
  unfold drawnState. destruct (negb _); repeat split.
Qed.

(** X13: A draw never pays out more than the jackpot: the credits it asks for
    add up to the floor share times the number of tickets whose holder is a
    known character, which is between 0 and the jackpot.  What the floor
    and the unknown holders leave over is paid to nobody. *)
Theorem drawWinningNumbers_pays_at_most_jackpot (fuel : nat) (w w' : World)
    (st : ASCLottery.t) (numbers : list Z) :
  misc_lottery w = Some st ->
  0 <= ASCLottery.jackpot st ->
  drawWinningNumbers lotteryConfig fuel w = Some (numbers, w') ->
  exists paid,
    ledger w' = (ledger w ++ paid)%list
    /\ totalCredited paid
       = ASCLottery.jackpot st / Z.of_nat (List.length (tickets w))
         * Z.of_nat (List.length (resolved (characters w)
                                           (map Database.stored (tickets w))))
    /\ 0 <= totalCredited paid <= ASCLottery.jackpot st.
Proof.
  intros Hst Hpos Hrun.
  destruct (drawWinningNumbers_spec lotteryConfig fuel w w' st numbers Hst Hrun)
    as (_ & _ & _ & _ & _ & Hl & _).
  rewrite length_map in Hl.
  set (all := map Database.stored (tickets w)) in *.
  set (N := Z.of_nat (List.length (tickets w))) in *.
  set (share := ASCLottery.jackpot st / N) in *.
  exists (credits (characters w) share all). split; [exact Hl|].
  assert (Htotal : forall l, totalCredited (credits (characters w) share l)
                             = share * Z.of_nat (List.length (resolved (characters w) l))).
  { intros l. unfold credits, resolved.
    induction (List.filter _ l) as [|t r IH]; cbn [map totalCredited List.length];
      [lia | rewrite IH; lia]. }
  split; [apply Htotal|]. rewrite Htotal.
  assert (Hk : Z.of_nat (List.length (resolved (characters w) all)) <= N).
  { unfold resolved, N.
    pose proof (filter_length_le
                  (fun t => bool_decide (is_Some (characters w !! LotteryTicket.playerUUID t)))
                  all) as Hle.
    unfold all in Hle at 2. rewrite length_map in Hle. lia. }
  destruct (Z.eq_dec N 0) as [HN|HN].
  - assert (Hz : Z.of_nat (List.length (resolved (characters w) all)) = 0) by lia.
    rewrite Hz. lia.
  - assert (0 < N) by lia.
    assert (0 <= share) by (apply Z.div_pos; lia).
    assert (N * share <= ASCLottery.jackpot st) by (apply Z.mul_div_le; lia).
    nia.
Qed.

(** Draws keep the rule of one ticket per identity. *)
Theorem drawWinningNumbers_keeps_oneTicketEach (fuel : nat) (w w' : World)
    (numbers : list Z) :
  oneTicketEach w ->
  drawWinningNumbers lotteryConfig fuel w = Some (numbers, w') ->
  oneTicketEach w'.
Proof.
  intros Hone Hrun. destruct (misc_lottery w) as [st|] eqn:Hst.
  - destruct (drawWinningNumbers_spec lotteryConfig fuel w w' st numbers Hst Hrun)
      as (_ & _ & _ & _ & Ht & _).
    unfold oneTicketEach, owners. rewrite Ht. constructor.
  - rewrite drawWinningNumbers_no_state in Hrun by exact Hst.
    now injection Hrun as _ <-.
Qed.

End DrawReport.

(** ** Scheduling *)

Section Scheduling.

Variable lotteryConfig : Config.t.
Variable LocalTZA : Z.

Lemma nextDrawAfter_today_or_tomorrow (now : Z) :
  ~ (0 <= JSDate.getFullYear LocalTZA now <= 99) ->
  let today := JSDate.Day (JSDate.LocalTime LocalTZA now) in
  nextDrawAfter LocalTZA now
  = if now <=? drawInstant LocalTZA today then drawInstant LocalTZA today
    else drawInstant LocalTZA (today + 1).
Proof.
  intros Hyear today.
  assert (Hfull : JSDate.MakeFullYear (JSDate.getFullYear LocalTZA now)
                  = JSDate.getFullYear LocalTZA now).
  { unfold JSDate.MakeFullYear.
    destruct (Z.leb_spec 0 (JSDate.getFullYear LocalTZA now));
      destruct (Z.leb_spec (JSDate.getFullYear LocalTZA now) 99);
      cbn [andb]; try reflexivity. exfalso. apply Hyear. lia. }
  assert (Htoday : JSDate.construct LocalTZA
                     (JSDate.getFullYear LocalTZA now) (JSDate.getMonth LocalTZA now)
                     (JSDate.getDate LocalTZA now) drawTime.hour drawTime.minute 0 0
                   = drawInstant LocalTZA today).
  { unfold JSDate.construct. rewrite Hfull.
    unfold JSDate.getFullYear, JSDate.getMonth, JSDate.getDate.
    rewrite MakeDay_of_time. reflexivity. }
  unfold nextDrawAfter. rewrite Htoday.
  destruct (Z.gtb_spec now (drawInstant LocalTZA today));
    destruct (Z.leb_spec now (drawInstant LocalTZA today)); try lia.
  assert (Hlocal : JSDate.LocalTime LocalTZA (drawInstant LocalTZA today)
                   = JSDate.MakeDate today
                       (JSDate.MakeTime drawTime.hour drawTime.minute 0 0))
    by apply LocalTime_UTC.
  assert (Hday : JSDate.Day (JSDate.LocalTime LocalTZA (drawInstant LocalTZA today))
                 = JSDate.Day (JSDate.LocalTime LocalTZA now))
    by (rewrite Hlocal; apply Day_MakeDate, drawTime_within_day).
  unfold JSDate.setDate, JSDate.getDate.
  rewrite MakeDay_next_date.
  rewrite (YearFromTime_Day _ _ Hday), (MonthFromTime_Day _ _ Hday),
    (DateFromTime_Day _ _ Hday), MakeDay_of_time.
  rewrite Hlocal, TimeWithinDay_MakeDate by apply drawTime_within_day.
  reflexivity.
Qed.

(** X14: The timer [scheduleDraw] sets never waits a negative time nor a full
    day: the delay is at least 0 and below 24 hours, it is 0 exactly when
    the scheduler runs at 18:00:00.000 local time, and the instant aimed at
    is 18:00 local time whatever the time of the call. *)
Theorem scheduleDraw_delay_bounds (now : Z) :
  ~ (0 <= JSDate.getFullYear LocalTZA now <= 99) ->
  let timeUntilDraw := nextDrawAfter LocalTZA now - now in
  0 <= timeUntilDraw < JSDate.msPerDay
  /\ (timeUntilDraw = 0
      <-> JSDate.TimeWithinDay (JSDate.LocalTime LocalTZA now) = JSDate.MakeTime 18 0 0 0)
  /\ JSDate.TimeWithinDay (JSDate.LocalTime LocalTZA (nextDrawAfter LocalTZA now))
     = JSDate.MakeTime 18 0 0 0.
Proof.
  intros Hyear timeUntilDraw. subst timeUntilDraw.
  rewrite (nextDrawAfter_today_or_tomorrow now Hyear). cbv zeta.
  set (today := JSDate.Day (JSDate.LocalTime LocalTZA now)).
  assert (Htod : forall day,
             JSDate.TimeWithinDay (JSDate.LocalTime LocalTZA (drawInstant LocalTZA day))
             = JSDate.MakeTime 18 0 0 0).
  { intros day. unfold drawInstant. rewrite LocalTime_UTC.
    apply TimeWithinDay_MakeDate, drawTime_within_day. }
  assert (Hsplit : JSDate.LocalTime LocalTZA now
                   = JSDate.msPerDay * today
                     + JSDate.TimeWithinDay (JSDate.LocalTime LocalTZA now))
    by (apply Z.div_mod; discriminate).
  pose proof (Z.mod_pos_bound (JSDate.LocalTime LocalTZA now) JSDate.msPerDay
                ltac:(reflexivity)) as Hrange.
  fold (JSDate.TimeWithinDay (JSDate.LocalTime LocalTZA now)) in Hrange.
  set (tod := JSDate.TimeWithinDay (JSDate.LocalTime LocalTZA now)) in *.
  unfold JSDate.LocalTime in Hsplit.
  assert (Hd : forall day,
             drawInstant LocalTZA day = day * 86400000 + 64800000 - LocalTZA)
    by reflexivity.
  change (JSDate.MakeTime 18 0 0 0) with 64800000 in *.
  change JSDate.msPerDay with 86400000 in *.
  destruct (Z.leb_spec now (drawInstant LocalTZA today)) as [Hle|Hgt];
    (split; [|split; [|apply Htod]]); rewrite Hd in *; lia.
Qed.

Lemma scheduleDraw_adds_timer (w : World) :
  scheduleDraw LocalTZA w
  = Some (tt, set_timers
                (timers w
                 ++ [{| delay := nextDrawAfter LocalTZA (clock w) - clock w |}]) w).
Proof. reflexivity. Qed.


(** X16: [initializeLottery] never overwrites a stored lottery state.  Without
    one it stores a fresh state with the configured ticket price and
    initial jackpot, no winning numbers and the epoch as last draw date,
    provided the store returns an id; in every case it sets exactly one
    timer and touches neither tickets nor characters. *)
Theorem initializeLottery_spec (w : World) :
  exists w',
    initializeLottery lotteryConfig LocalTZA w = Some (tt, w')
    /\ misc_lottery w'
       = match misc_lottery w, nextCreateResult w with
         | Some st, _ => Some st
         | None, Some id =>
             Some {| ASCLottery._id := Some id;
                     ASCLottery.type := "lottery";
                     ASCLottery.ticketPrice := Config.ticketPrice lotteryConfig;
                     ASCLottery.jackpot := Config.initialJackpot lotteryConfig;
                     ASCLottery.lastDrawDate := 0;
                     ASCLottery.winningNumbers := [] |}
         | None, None => None
         end
    /\ timers w'
       = (timers w ++ [{| delay := nextDrawAfter LocalTZA (clock w) - clock w |}])%list
    /\ tickets w' = tickets w
    /\ characters w' = characters w.
Proof.
  unfold initializeLottery, bind, Database.get_lottery, Database.create_lottery,
    nextCreateResult, ret.
  destruct (misc_lottery w) as [st|] eqn:Hst.
  - rewrite scheduleDraw_adds_timer. eexists. split; [reflexivity|].
    cbn. rewrite Hst. repeat split.
  - destruct (createOutcomes w) as [|[id|] rest] eqn:Hc; rewrite ?Hst;
      rewrite scheduleDraw_adds_timer; (eexists; split; [reflexivity|]);
      cbn; rewrite ?Hst; repeat split.
Qed.

End Scheduling.

(** ** The recorded ticket price *)

Section PriceAgreement.

Variable lotteryConfig : Config.t.
Variable LocalTZA : Z.

(** A store without a lottery state agrees with every configuration. *)
Lemma priceAgrees_no_state (w : World) :
  misc_lottery w = None -> priceAgrees lotteryConfig w.
Proof. intros Hnone st Hst. congruence. Qed.

(** [initializeLottery] keeps a state that agrees, and the state it
    creates records the configured price. *)
Lemma priceAgrees_initializeLottery (w w' : World) :
  priceAgrees lotteryConfig w ->
  initializeLottery lotteryConfig LocalTZA w = Some (tt, w') ->
  priceAgrees lotteryConfig w'.
Proof.
  intros Hagree. unfold initializeLottery, bind, Database.get_lottery,
    Database.create_lottery, ret.
  destruct (misc_lottery w) as [st|] eqn:Hst.
  - rewrite scheduleDraw_adds_timer. intros Hrun. injection Hrun as <-.
    intros st' Hst'. cbn in Hst'. apply Hagree. congruence.
  - destruct (createOutcomes w) as [|[id|] rest] eqn:Hc;
      rewrite scheduleDraw_adds_timer; intros Hrun; injection Hrun as <-;
      intros st' Hst'; cbn in Hst'; rewrite ?Hst in Hst';
      try discriminate.
    injection Hst' as <-. reflexivity.
Qed.

(** A purchase keeps the agreement. *)
Lemma priceAgrees_buyTicket (player : Player.t) (numbers : string)
    (w w' : World) (r : option LotteryTicket.t) :
  priceAgrees lotteryConfig w ->
  buyTicket lotteryConfig player numbers w = Some (r, w') ->
  priceAgrees lotteryConfig w'.
Proof.
  intros Hagree.
  buy_paths lotteryConfig player numbers w; intros Hbuy;
    injection Hbuy as <- <-; intros st' Hst'; cbn in Hst';
    rewrite ?Hst in Hst'; try (apply Hagree; congruence).
  injection Hst' as <-. cbn. apply Hagree. exact Hst.
Qed.

(** A draw keeps the agreement. *)
Lemma priceAgrees_drawWinningNumbers (fuel : nat) (w w' : World) (numbers : list Z) :
  priceAgrees lotteryConfig w ->
  drawWinningNumbers lotteryConfig fuel w = Some (numbers, w') ->
  priceAgrees lotteryConfig w'.
Proof.
  intros Hagree Hrun. destruct (misc_lottery w) as [st|] eqn:Hst.
  - destruct (drawWinningNumbers_spec lotteryConfig fuel w w' st numbers Hst Hrun)
      as (_ & _ & _ & Hst' & _).
    intros st' Hs. rewrite Hst' in Hs. injection Hs as <-.
    unfold drawnState. destruct (negb _); cbn; apply Hagree; exact Hst.
  - rewrite (drawWinningNumbers_no_state lotteryConfig fuel w Hst) in Hrun.
    injection Hrun as _ <-. exact Hagree.
Qed.

End PriceAgreement.

(** ** Chat commands *)

Lemma randomNumbers_spec (n : nat) :
  forall w : World,
  exists numbers,
    randomNumbers n w = Some (numbers, set_randomCalls (randomCalls w + n) w)
    /\ List.length numbers = n
    /\ List.Forall (fun k => 1 <= k <= 49) numbers.
Proof.
  induction n as [|n IH]; intros w.
  - exists []. cbn. rewrite Nat.add_0_r, set_randomCalls_same.
    repeat split. constructor.
  - cbn [randomNumbers]. unfold bind, Math.random.
    destruct (IH (set_randomCalls (S (randomCalls w)) w)) as (rest & -> & Hlen & Hall).
    set (r := random w (randomCalls w) mod 2 ^ 53).
    assert (Hr : 0 <= r < 2 ^ 53) by (apply Z.mod_pos_bound; lia).
    pose proof (floor_scaled_bounds r 49 Hr ltac:(lia)).
    eexists. cbn. rewrite Nat.add_succ_r. split; [reflexivity|].
    split; [cbn; now rewrite Hlen|]. constructor; [lia | exact Hall].
Qed.

(** X17: [/simulatedraw] with a lottery state in the store replaces the winning
    numbers by six numbers of [1,49], which may repeat, announces them and
    removes every ticket; it pays nobody, calls the currency API not at
    all, and leaves jackpot and last draw date as they were.  Without a
    lottery state it does nothing. *)
Theorem simulatedrawCommand_effects (w : World) :
  match misc_lottery w with
  | Some st =>
      exists numbers winnerName w',
        simulatedrawCommand w = Some (SimulatedDraw numbers winnerName, w')
        /\ List.length numbers = 6%nat
        /\ List.Forall (fun k => 1 <= k <= 49) numbers
        /\ misc_lottery w' = Some (ASCLottery.set_winningNumbers numbers st)
        /\ tickets w' = []
        /\ characters w' = characters w
        /\ ledger w' = ledger w
  | None => simulatedrawCommand w = Some (NothingSimulated, w)
  end.
Proof.
  destruct (misc_lottery w) as [st|] eqn:Hst;
    unfold simulatedrawCommand; unfold bind at 1;
    unfold Database.get_lottery at 1; rewrite Hst; [|reflexivity].
  unfold bind at 1.
  destruct (randomNumbers_spec 6 w) as (numbers & -> & Hlen & Hall).
  exists numbers.
  unfold bind, Database.update_lottery, get_ticket_by_numbers,
    Database.get_character, Database.getAll_tickets, ret.
  cbn [misc_lottery set_randomCalls tickets set_misc_lottery characters
       ASCLottery.winningNumbers ASCLottery.set_winningNumbers].
  rewrite Hst.
  cbn [misc_lottery set_randomCalls tickets set_misc_lottery characters].
  set (w1 := set_misc_lottery _ _).
  assert (Hdel : exists w',
             forEach (map Database.stored (tickets w1))
               (fun ticket => Database.deleteDocument (LotteryTicket._id ticket)) w1
             = Some (tt, w')
             /\ misc_lottery w' = misc_lottery w1
             /\ characters w' = characters w1
             /\ ledger w' = ledger w1
             /\ notifications w' = notifications w1
             /\ tickets w' = []).
  { destruct (delete_all_frame (tickets w1) w1 eq_refl)
      as (w' & Hrun & _ & _ & Hn & Hm & Hc & Hl & Ht).
    exists w'. repeat split; assumption. }
  destruct Hdel as (w' & Hrun & Hm & Hc & Hl & Hn & Ht).
  destruct (Database.stored <$> List.find _ (tickets w)) as [ticket|];
    rewrite Hrun; eexists; exists w'; (split; [reflexivity|]);
    rewrite Hm, Hc, Hl, Ht; repeat split; assumption.
Qed.

(** [/simulatedraw] keeps the ticket price the lottery state records. *)
Lemma priceAgrees_simulatedrawCommand (lotteryConfig : Config.t) (w w' : World)
    (r : CommandReply) :
  priceAgrees lotteryConfig w ->
  simulatedrawCommand w = Some (r, w') ->
  priceAgrees lotteryConfig w'.
Proof.
  intros Hagree.
  destruct (misc_lottery w) as [st|] eqn:Hst;
    unfold simulatedrawCommand; unfold bind at 1;
    unfold Database.get_lottery at 1; rewrite Hst;
    [|intros Hrun; injection Hrun as _ <-; exact Hagree].
  unfold bind at 1.
  destruct (randomNumbers_spec 6 w) as (numbers & -> & _ & _).
  unfold bind, Database.update_lottery, get_ticket_by_numbers,
    Database.get_character, Database.getAll_tickets, ret.
  cbn [misc_lottery set_randomCalls tickets set_misc_lottery characters
       ASCLottery.winningNumbers ASCLottery.set_winningNumbers].
  rewrite Hst.
  cbn [misc_lottery set_randomCalls tickets set_misc_lottery characters].
  set (w1 := set_misc_lottery _ _).
  destruct (delete_all_frame (tickets w1) w1 eq_refl)
    as (w2 & Hrun & _ & _ & _ & Hm & _).
  destruct (Database.stored <$> List.find _ (tickets w)) as [ticket|];
    rewrite Hrun; intros Hret; injection Hret as _ <-;
    intros st' Hst'; rewrite Hm in Hst'; cbn in Hst';
    injection Hst' as <-; cbn; apply Hagree; exact Hst.
Qed.

Section CommandProperties.

Variable lotteryConfig : Config.t.

Lemma buyTicket_success_path (player : Player.t) (numbers : string) (w : World)
    (ticketNumbers : list JS.number) (c : Character.t) (id : string) :
  parseTicketNumbers numbers = Some ticketNumbers ->
  ~ holdsTicket (Player.character_id player) w ->
  characters w !! Player.character_id player = Some c ->
  Config.ticketPrice lotteryConfig <= Character.cash c ->
  nextCreateResult w = Some id ->
  id <> EmptyString ->
  exists w',
    buyTicket lotteryConfig player numbers w
    = Some (Some {| LotteryTicket._id := Some id;
                    LotteryTicket.ticketNumbers := ticketNumbers;
                    LotteryTicket.playerUUID := Player.character_id player |}, w')
    /\ tickets w'
       = (tickets w
          ++ [(id, {| LotteryTicket._id := None;
                      LotteryTicket.ticketNumbers := ticketNumbers;
                      LotteryTicket.playerUUID := Player.character_id player |})])%list
    /\ (Character.cash <$> characters w' !! Player.character_id player
        = Some (Character.cash c - Config.ticketPrice lotteryConfig)).
Proof.
  intros Hp Hnew Hchar Hrich Hnext Hid.
  unfold nextCreateResult in Hnext.
  buy_paths lotteryConfig player numbers w;
    try discriminate;
    try (exfalso; apply Hnew; apply find_some in Hfind as [Hin Hd];
         exists existing; split; [exact Hin | now apply String.eqb_eq]);
    try (injection Hchar as <-; lia);
    try congruence;
    cbn in Hnext; try discriminate Hnext;
    injection Hnext as <-; try (exfalso; apply Hid; reflexivity);
    injection Hp as <-; injection Hchar as <-;
    (eexists; split; [reflexivity|]); cbn; rewrite ?Hst; cbn;
    rewrite lookup_insert_eq; repeat split.
Qed.

(** X18: For every player and store, [/buyticket] with any number of
    arguments other than six replies with its usage and touches nothing.
    With six integers of [1,49] written in decimal it buys the ticket with
    exactly these numbers for a player who holds none yet and has cash for
    the price, when the store returns a non-empty id: the reply names the
    numbers, the ticket is stored under the player's identity and the
    price is taken from the player's cash. *)
Theorem buyticketCommand_buys (player : Player.t) (w : World) :
  (forall arguments,
     List.length arguments <> 6%nat ->
     buyticketCommand lotteryConfig player arguments w = Some (InvalidUsage, w))
  /\ (forall (numbers : list Z) (c : Character.t) (id : string),
        List.length numbers = 6%nat ->
        List.Forall (fun n => 1 <= n <= 49) numbers ->
        ~ holdsTicket (Player.character_id player) w ->
        characters w !! Player.character_id player = Some c ->
        Config.ticketPrice lotteryConfig <= Character.cash c ->
        nextCreateResult w = Some id ->
        id <> EmptyString ->
        exists w',
          buyticketCommand lotteryConfig player (map Spec.numeral numbers) w
          = Some (Bought (map JS.of_Z numbers), w')
          /\ tickets w'
             = (tickets w
                ++ [(id, integerTicket (Player.character_id player) numbers)])%list
          /\ (Character.cash <$> characters w' !! Player.character_id player
              = Some (Character.cash c - Config.ticketPrice lotteryConfig))).
Proof.
  split.
  - intros arguments Hargs. unfold buyticketCommand.
    destruct (Nat.eqb_spec (List.length arguments) 6); [contradiction | reflexivity].
  - intros numbers c id Hlen Hall Hnew Hchar Hrich Hnext Hid.
    pose proof (parse_joined_numerals numbers Hlen Hall) as Hparse.
    destruct (buyTicket_success_path player _ w _ c id Hparse Hnew Hchar Hrich Hnext Hid)
      as (w' & Hbuy & Ht & Hcash).
    exists w'. unfold buyticketCommand, bind.
    rewrite length_map, Hlen. cbn [Nat.eqb negb]. rewrite Hbuy.
    repeat split; assumption.
Qed.


End CommandProperties.

(** ** The further properties at concrete inputs *)

Lemma parseTicketNumbers_accepts_integers_witness :
  parseTicketNumbers "7 7 49 1 13 13" = Some (map JS.of_Z [7; 7; 49; 1; 13; 13]).
Proof.
  apply (parseTicketNumbers_accepts_integers [7; 7; 49; 1; 13; 13]);
    [reflexivity | repeat constructor; lia].
Defined.

Lemma parseTicketNumbers_result_positive_finite_witness :
  List.length (map JS.of_Z [1; 2; 3; 4; 5; 6]) = 6%nat
  /\ List.Forall (fun n => (exists m e, n = S754_finite false m e)
                           /\ JS.ltb n (JS.of_Z 1) = false
                           /\ JS.gtb n (JS.of_Z 49) = false)
                 (map JS.of_Z [1; 2; 3; 4; 5; 6]).
Proof.
  apply (parseTicketNumbers_result_positive_finite "1 2 3 4 5 6").
  vm_compute. reflexivity.
Defined.

Lemma buyTicket_invalid_numbers_witness :
  buyTicket Scenario.lotteryConfig Scenario.playerA "1 2 3 4 5" Scenario.world0
  = Some (None, Scenario.world0).
Proof.
  apply buyTicket_invalid_numbers. left. vm_compute. discriminate.
Defined.

Lemma buyTicket_succeeds_witness :
  exists w',
    buyTicket Scenario.lotteryConfig Scenario.playerA "1 2 3 4 5 6" Scenario.world0
    = Some (Some (Database.stored (Scenario.ticketOf "t1" "A" [1; 2; 3; 4; 5; 6])), w')
    /\ tickets w' = [Scenario.ticketOf "t1" "A" [1; 2; 3; 4; 5; 6]]
    /\ Character.cash <$> characters w' !! "A" = Some (1000 - 100)
    /\ (misc_lottery Scenario.world0 = None -> misc_lottery w' = None).
Proof.
  assert (Hparse : parseTicketNumbers "1 2 3 4 5 6" = Some (map JS.of_Z [1; 2; 3; 4; 5; 6]))
    by (vm_compute; reflexivity).
  assert (Hnew : ~ holdsTicket (Player.character_id Scenario.playerA) Scenario.world0)
    by (intros (d & Hin & _); destruct Hin).
  assert (Hchar : characters Scenario.world0 !! Player.character_id Scenario.playerA
                  = Some Scenario.alice) by (vm_compute; reflexivity).
  assert (Hrich : Config.ticketPrice Scenario.lotteryConfig <= Character.cash Scenario.alice)
    by (vm_compute; discriminate).
  assert (Hid : "t1" <> EmptyString) by discriminate.
  exact (buyTicket_succeeds Scenario.lotteryConfig Scenario.playerA "1 2 3 4 5 6"
           Scenario.world0 (map JS.of_Z [1; 2; 3; 4; 5; 6]) Scenario.alice "t1"
           Hparse Hnew Hchar Hrich eq_refl Hid).
Defined.

Lemma buyTicket_then_getCurrentTicket_witness :
  getCurrentTicket Scenario.playerA Scenario.world1
  = Some (Some (Database.stored (Scenario.ticketOf "t1" "A" [1; 2; 3; 4; 5; 6])),
          Scenario.world1)
  /\ List.length (tickets Scenario.world1) = 1%nat.
Proof.
  destruct (buyTicket_then_getCurrentTicket Scenario.lotteryConfig Scenario.playerA
              "1 2 3 4 5 6" Scenario.world0 Scenario.world1
              (Database.stored (Scenario.ticketOf "t1" "A" [1; 2; 3; 4; 5; 6])))
    as (Hget & _ & _ & Hlen).
  - vm_compute. reflexivity.
  - split; [exact Hget | exact Hlen].
Defined.

Lemma buyTicket_keeps_oneTicketEach_witness :
  oneTicketEach Scenario.world0 /\ oneTicketEach Scenario.world1.
Proof.
  assert (H0 : oneTicketEach Scenario.world0) by constructor.
  split; [exact H0|].
  apply (buyTicket_keeps_oneTicketEach Scenario.lotteryConfig Scenario.playerA
           "1 2 3 4 5 6" Scenario.world0 Scenario.world1
           (Some (Database.stored (Scenario.ticketOf "t1" "A" [1; 2; 3; 4; 5; 6]))));
    [exact H0 | vm_compute; reflexivity].
Defined.

Lemma buyTicket_lottery_state_frame_witness :
  match misc_lottery Scenario.world0, misc_lottery Scenario.world1 with
  | Some st, Some st' =>
      sameButJackpot st st'
      /\ (ASCLottery.jackpot st' = ASCLottery.jackpot st
          \/ (Some (Database.stored (Scenario.ticketOf "t1" "A" [1; 2; 3; 4; 5; 6])) <> None
              /\ ASCLottery.jackpot st' = ASCLottery.jackpot st + ASCLottery.ticketPrice st))
  | None, None => True
  | _, _ => False
  end.
Proof.
  apply (buyTicket_lottery_state_frame Scenario.lotteryConfig Scenario.playerA
           "1 2 3 4 5 6" Scenario.world0 Scenario.world1).
  vm_compute. reflexivity.
Defined.

Lemma buyTicket_characters_frame_witness :
  match characters Scenario.world0 !! "B", characters Scenario.world1 !! "B" with
  | Some c, Some c' =>
      Character.name c' = Character.name c
      /\ Character.bank c' = Character.bank c
      /\ (Character.cash c' = Character.cash c
          \/ ("B" = Player.character_id Scenario.playerA
              /\ Character.cash c' = Character.cash c - 100))
  | None, None => True
  | _, _ => False
  end.
Proof.
  apply (buyTicket_characters_frame Scenario.lotteryConfig Scenario.playerA
           "1 2 3 4 5 6" Scenario.world0 Scenario.world1
           (Some (Database.stored (Scenario.ticketOf "t1" "A" [1; 2; 3; 4; 5; 6])))).
  vm_compute. reflexivity.
Defined.

Lemma checkWinningTicket_subset_witness :
  checkWinningTicket (integerTicket "A" [7; 7; 7; 7; 7; 7]) Scenario.drawn = true.
Proof.
  assert (Hns : List.Forall (fun n => 1 <= n <= 49) [7; 7; 7; 7; 7; 7])
    by (repeat constructor; lia).
  assert (Hws : List.Forall (fun n => 1 <= n <= 49) Scenario.drawn)
    by (repeat constructor; lia).
  destruct (checkWinningTicket_subset (integerTicket "A" [7; 7; 7; 7; 7; 7])
              [7; 7; 7; 7; 7; 7] Scenario.drawn eq_refl Hns Hws) as [[_ Hwin] _].
  apply Hwin. intros n Hn. left. cbn in Hn. intuition congruence.
Defined.

Lemma generateRandomNumbers_never_returns_witness :
  generateRandomNumbers 1000 50 1 49 Scenario.world0 = None.
Proof. apply generateRandomNumbers_never_returns; lia. Defined.

Lemma generateRandomNumbers_unique_in_range_witness :
  generateRandomNumbers 10 6 1 49 Scenario.world0
  = Some (Scenario.drawn,
          Scenario.after (generateRandomNumbers 10 6 1 49 Scenario.world0) Scenario.world0)
  /\ List.NoDup Scenario.drawn
  /\ List.Forall (fun n => 1 <= n <= 49) Scenario.drawn.
Proof.
  assert (Hrun : generateRandomNumbers 10 6 1 49 Scenario.world0
                 = Some (Scenario.drawn,
                         Scenario.after (generateRandomNumbers 10 6 1 49 Scenario.world0)
                                        Scenario.world0))
    by (vm_compute; reflexivity).
  split; [exact Hrun|].
  destruct (generateRandomNumbers_unique_in_range 10 6 1 49 _ _ _
              ltac:(lia) ltac:(lia) Hrun) as (_ & Hnd & Hrg & _).
  split; [exact Hnd | exact Hrg].
Defined.

Lemma drawWinningNumbers_announcement_witness :
  notifications Scenario.world3' = [DrawResult Scenario.drawn "Bob"]
  /\ ASCLottery.lastDrawDate <$> misc_lottery Scenario.world3' = Some Scenario.evening.
Proof.
  destruct (drawWinningNumbers_announcement Scenario.lotteryConfig 10 Scenario.world3
              Scenario.world3' Scenario.state700 Scenario.drawn)
    as (Hn & st' & Hm & Hd & _); [reflexivity | vm_compute; reflexivity |].
  split; [exact Hn|]. rewrite Hm. cbn. now rewrite Hd.
Defined.

Lemma drawWinningNumbers_pays_at_most_jackpot_witness :
  exists paid,
    ledger Scenario.world3' = paid
    /\ totalCredited paid = 700 / 3 * 2
    /\ 0 <= totalCredited paid <= 700.
Proof.
  apply (drawWinningNumbers_pays_at_most_jackpot Scenario.lotteryConfig 10
           Scenario.world3 Scenario.world3' Scenario.state700 Scenario.drawn);
    [reflexivity | vm_compute; discriminate | vm_compute; reflexivity].
Defined.

Lemma scheduleDraw_delay_bounds_witness :
  0 <= nextDrawAfter 0 Scenario.evening - Scenario.evening < JSDate.msPerDay.
Proof.
  apply (scheduleDraw_delay_bounds 0 Scenario.evening).
  assert (Hy : JSDate.getFullYear 0 Scenario.evening = 2024) by (vm_compute; reflexivity).
  rewrite Hy. lia.
Defined.


Lemma buyticketCommand_buys_witness :
  buyticketCommand Scenario.lotteryConfig Scenario.playerB ["1"; "2"; "3"]
    Scenario.world1
  = Some (InvalidUsage, Scenario.world1)
  /\ exists w',
       buyticketCommand Scenario.lotteryConfig Scenario.playerA
         ["1"; "2"; "3"; "4"; "5"; "6"] Scenario.world0
       = Some (Bought (map JS.of_Z [1; 2; 3; 4; 5; 6]), w')
       /\ tickets w' = [Scenario.ticketOf "t1" "A" [1; 2; 3; 4; 5; 6]]
       /\ Character.cash <$> characters w' !! "A" = Some (1000 - 100).
Proof.
  assert (Hargs : List.length ["1"; "2"; "3"] <> 6%nat) by discriminate.
  assert (Hall : List.Forall (fun n => 1 <= n <= 49) [1; 2; 3; 4; 5; 6])
    by (repeat constructor; lia).
  assert (Hnew : ~ holdsTicket (Player.character_id Scenario.playerA) Scenario.world0)
    by (intros (d & Hin & _); destruct Hin).
  assert (Hchar : characters Scenario.world0 !! Player.character_id Scenario.playerA
                  = Some Scenario.alice) by (vm_compute; reflexivity).
  assert (Hrich : Config.ticketPrice Scenario.lotteryConfig <= Character.cash Scenario.alice)
    by (vm_compute; discriminate).
  assert (Hid : "t1" <> EmptyString) by discriminate.
  split.
  - exact (proj1 (buyticketCommand_buys Scenario.lotteryConfig Scenario.playerB
                    Scenario.world1) ["1"; "2"; "3"] Hargs).
  - exact (proj2 (buyticketCommand_buys Scenario.lotteryConfig Scenario.playerA
                    Scenario.world0)
             [1; 2; 3; 4; 5; 6] Scenario.alice "t1"
             eq_refl Hall Hnew Hchar Hrich eq_refl Hid).
Defined.

(** [/simulatedraw] may draw a number twice, and pays the holder of the
    very ticket it names as winner nothing. *)
Example simulatedraw_repeats_numbers :
  simulatedrawCommand
    (set_tickets [Scenario.ticketOf "t1" "A" [7; 7; 13; 21; 7; 34]] Scenario.world0)
  = Some (SimulatedDraw [7; 7; 13; 21; 7; 34] "Alice",
          Scenario.after
            (simulatedrawCommand
               (set_tickets [Scenario.ticketOf "t1" "A" [7; 7; 13; 21; 7; 34]]
                            Scenario.world0))
            Scenario.world0)
  /\ ledger (Scenario.after
               (simulatedrawCommand
                  (set_tickets [Scenario.ticketOf "t1" "A" [7; 7; 13; 21; 7; 34]]
                               Scenario.world0))
               Scenario.world0) = [].
Proof. split; vm_compute; reflexivity. Qed.
